(** * STUNner clusters: a shallow embedding of [internal/object/cluster.go]

    A [Cluster] is the access-control entity of the relay gateway: it
    decides, for a peer address, whether relayed traffic may be forwarded
    to it.  The endpoint set is either a list of subnets ([STATIC]) or a
    list of domain names kept registered with a shared DNS resolver
    ([STRICT_DNS]).

    The development follows the source file function by function
    ([NewCluster], [Reconcile], [GetConfig], [Close], [Route] and the
    factory), threading the resolver through as explicit state and
    recording every call the cluster makes on it. *)

From Stdlib Require Import String Ascii Bool Arith NArith Lia List.
From Stdlib Require Import Permutation DecimalString.
Import ListNotations.

Local Open Scope string_scope.
Local Open Scope list_scope.

Set Implicit Arguments.

(* ===================================================================== *)
(** ** Go's [net] package: addresses and subnets *)
(* ===================================================================== *)

(** The part of the standard [net] package that the cluster calls on
    values: [IP.To4], [IP.Equal] and [IPNet.Contains].  An [IP] is a byte
    slice of length 4 or 16 (the nil slice is the empty list); bytes are
    numbers below 256. *)
Module net.

Definition IP := list N.
Definition IPMask := list N.

Record IPNet := mkIPNet { net_IP : IP; net_Mask : IPMask }.

Definition IPv4len : nat := 4.
Definition IPv6len : nat := 16.

Definition v4InV6Prefix : list N :=
  [0; 0; 0; 0; 0; 0; 0; 0; 0; 0; 255; 255]%N.

Fixpoint bytes_eqb (a b : list N) : bool :=
  match a, b with
  | [], [] => true
  | x :: a', y :: b' => N.eqb x y && bytes_eqb a' b'
  | _, _ => false
  end.

(** [ip.To4()]: the 4-byte form of an IPv4 address, [None] for the nil
    result. *)
Definition To4 (ip : IP) : option IP :=
  if Nat.eqb (length ip) IPv4len then Some ip
  else if Nat.eqb (length ip) IPv6len && bytes_eqb (firstn 12 ip) v4InV6Prefix
       then Some (skipn 12 ip)
       else None.

(** [ip.Equal(x)]: an IPv4 address and its IPv4-in-IPv6 form are equal. *)
Definition Equal (ip x : IP) : bool :=
  if Nat.eqb (length ip) (length x) then bytes_eqb ip x
  else if Nat.eqb (length ip) IPv4len && Nat.eqb (length x) IPv6len
       then bytes_eqb (firstn 12 x) v4InV6Prefix && bytes_eqb ip (skipn 12 x)
  else if Nat.eqb (length ip) IPv6len && Nat.eqb (length x) IPv4len
       then bytes_eqb (firstn 12 ip) v4InV6Prefix && bytes_eqb (skipn 12 ip) x
  else false.

(** [networkNumberAndMask(n)]; the pair of nil slices is [([], [])]. *)
Definition networkNumberAndMask (n : IPNet) : IP * IPMask :=
  let oip :=
    match To4 (net_IP n) with
    | Some x => Some x
    | None => if Nat.eqb (length (net_IP n)) IPv6len
              then Some (net_IP n) else None
    end in
  match oip with
  | None => ([], [])
  | Some ip =>
      let m := net_Mask n in
      if Nat.eqb (length m) IPv4len then
        if Nat.eqb (length ip) IPv4len then (ip, m) else ([], [])
      else if Nat.eqb (length m) IPv6len then
        if Nat.eqb (length ip) IPv4len then (ip, skipn 12 m) else (ip, m)
      else ([], [])
  end.

(** The comparison loop of [Contains]: [nn[i]&m[i] == ip[i]&m[i]] for
    every index of [ip].  The loop runs only when [nn] and [ip] have the
    same length, and the mask then has that length too. *)
Fixpoint masked_eqb (nn : IP) (m : IPMask) (ip : IP) : bool :=
  match ip, nn, m with
  | [], _, _ => true
  | b :: ip', a :: nn', k :: m' =>
      if N.eqb (N.land a k) (N.land b k) then masked_eqb nn' m' ip' else false
  | _ :: _, _, _ => false
  end.

(** [n.Contains(ip)]. *)
Definition Contains (n : IPNet) (ip : IP) : bool :=
  let '(nn, m) := networkNumberAndMask n in
  let ip := match To4 ip with Some x => x | None => ip end in
  if Nat.eqb (length ip) (length nn) then masked_eqb nn m ip else false.

(** [CIDRMask(ones, bits)] for [0 <= ones <= bits], [bits] 32 or 128. *)
Fixpoint mask_bytes (ones len : nat) : IPMask :=
  match len with
  | O => []
  | S len' =>
      if Nat.leb 8 ones then 255%N :: mask_bytes (ones - 8) len'
      else (N.land 255 (N.shiftl 255 (N.of_nat (8 - ones)))) :: mask_bytes 0 len'
  end.

Definition CIDRMask (ones bits : nat) : IPMask := mask_bytes ones (bits / 8).

(** [ip.Mask(mask)] for an address and a mask of the same length. *)
Definition IP_Mask (ip : IP) (mask : IPMask) : IP :=
  map (fun p => N.land (fst p) (snd p)) (combine ip mask).

End net.


(** The textual side of [net]: [ParseCIDR], [ParseIP] and [IPNet.String].
    The cluster only passes literals through them, so they are taken as an
    interface; [ParseCIDR] yields the address and the subnet of a literal
    (or fails), [ParseIP] yields the address (or the nil address). *)
Class NetText : Type := {
  ParseCIDR : string -> option (net.IP * net.IPNet);
  ParseIP : string -> option net.IP;
  IPNet_String : net.IPNet -> string
}.

(* ===================================================================== *)
(** ** Errors, configurations and the helper packages *)
(* ===================================================================== *)

(** Go [error] values that occur in the file: the two distinguished values
    of [v1alpha1], the errors of [Validate] and [NewClusterType], the
    formatted error of [Reconcile], and the resolver's errors. *)
Inductive error : Type :=
| ErrInvalidConf
| ErrRestartRequired
| ErrMissingName
| ErrUnknownClusterType (raw : string)
| ErrNoResolver (cluster : string)
| ErrResolver (msg : string).

Definition error_eqb (a b : error) : bool :=
  match a, b with
  | ErrInvalidConf, ErrInvalidConf => true
  | ErrRestartRequired, ErrRestartRequired => true
  | ErrMissingName, ErrMissingName => true
  | ErrUnknownClusterType x, ErrUnknownClusterType y => String.eqb x y
  | ErrNoResolver x, ErrNoResolver y => String.eqb x y
  | ErrResolver x, ErrResolver y => String.eqb x y
  | _, _ => false
  end.

Module v1alpha1.

(** [ClusterType]: the two named types and every other value of the
    underlying integer type, which matches no [case] of the file. *)
Inductive ClusterType : Type :=
| ClusterTypeStatic
| ClusterTypeStrictDNS
| ClusterTypeUnknown.

(** Modelled from the spec: [NewClusterType] is declared in the API
    package, which is not among the sources.  The configuration shape is
    [type: "STATIC"|"STRICT_DNS"]; any other literal is unrecognized. *)
Definition NewClusterType (raw : string) : ClusterType * option error :=
  if String.eqb raw "STATIC" then (ClusterTypeStatic, None)
  else if String.eqb raw "STRICT_DNS" then (ClusterTypeStrictDNS, None)
  else (ClusterTypeUnknown, Some (ErrUnknownClusterType raw)).

(** Modelled from the spec: [ClusterType.String] is the inverse of
    [NewClusterType] on the two named types; the text of any other value
    is not fixed by the spec and nothing below depends on it. *)
Definition ClusterType_String (t : ClusterType) : string :=
  match t with
  | ClusterTypeStatic => "STATIC"
  | ClusterTypeStrictDNS => "STRICT_DNS"
  | ClusterTypeUnknown => "<unknown>"
  end.

(** [{ name: string, type: "STATIC"|"STRICT_DNS", endpoints: [string] }] *)
Record ClusterConfig : Type := mkClusterConfig {
  Name : string;
  Type_ : string;
  Endpoints : list string
}.

(** A [Config] interface value: nil, a [*ClusterConfig], or the
    configuration of another kind of object. *)
Inductive Config : Type :=
| NilConfig
| ClusterConf (req : ClusterConfig)
| OtherConf.

(** Modelled from the spec: [ClusterConfig.Validate] is not among the
    sources.  It "validates the configuration structurally (non-empty
    name, recognized type literal)". *)
Definition Validate (req : ClusterConfig) : option error :=
  if String.eqb (Name req) "" then Some ErrMissingName
  else snd (NewClusterType (Type_ req)).

End v1alpha1.

Export v1alpha1 (ClusterType(..), Config(..)).

Module util.

Definition mem (x : string) (l : list string) : bool :=
  existsb (String.eqb x) l.

(** Modelled from the spec: [util.Diff] is not among the sources.
    [Diff(current, requested)] returns the domains "present in current
    but absent in requested" and those "present in requested but absent
    in current". *)
Definition Diff (a b : list string) : list string * list string :=
  (filter (fun x => negb (mem x b)) a, filter (fun x => negb (mem x a)) b).

(** Modelled from the spec: [util.Remove] is not among the sources.
    [Remove(list, h)] "removes [h] from the list": the first entry equal
    to [h] is dropped. *)
Fixpoint Remove (l : list string) (h : string) : list string :=
  match l with
  | [] => []
  | x :: l' => if String.eqb x h then l' else x :: Remove l' h
  end.

End util.

Module sort.
(** [sort.StringSlice(x)] is a conversion of [x] to the named slice type
    [StringSlice]; it calls none of the methods of that type. *)
Definition StringSlice (x : list string) : list string := x.
End sort.

(* ===================================================================== *)
(** ** The resolver and the world around a cluster *)
(* ===================================================================== *)

(** [resolver.DnsResolver]: the interface the cluster consumes, over the
    resolver's own state [R].  [Lookup] returns Go's pair of an address
    slice and an error. *)
Class DnsResolver (R : Type) : Type := {
  Register : string -> R -> R * option error;
  Unregister : string -> R -> R;
  Lookup : string -> R -> list net.IP * option error
}.

(** The calls a cluster makes on the resolver, in the order it makes them;
    a [Register] call is recorded with whether it returned nil. *)
Inductive Call : Type :=
| CallRegister (domain : string) (ok : bool)
| CallUnregister (domain : string).

(** The shared resolver together with the record of this cluster's calls. *)
Record World (R : Type) : Type := mkWorld {
  resolver : R;
  calls : list Call
}.

(** An interface value held in a field: nil, or the shared object. *)
Inductive iface : Type := Nil | Obj.

(** The result of running a method: it returns, or it panics on the method
    call of a nil interface value. *)
Inductive Outcome (A : Type) : Type :=
| Done (a : A)
| Panic.
Arguments Panic {A}.

Definition bind {A B : Type} (m : Outcome A) (k : A -> Outcome B) : Outcome B :=
  match m with
  | Done a => k a
  | Panic => Panic
  end.

Notation "x <- m ;; k" := (bind m (fun x => k))
  (at level 61, m at next level, right associativity).
Notation "' p <- m ;; k" := (bind m (fun p => k))
  (at level 61, p pattern, m at next level, right associativity).

(** A method call on the interface value [i]. *)
Definition deref (i : iface) : Outcome unit :=
  match i with
  | Obj => Done tt
  | Nil => Panic
  end.

(* ===================================================================== *)
(** ** The cluster *)
(* ===================================================================== *)

Record Cluster : Type := mkCluster {
  Name : string;
  Type_ : ClusterType;
  Endpoints : list net.IPNet;
  Domains : list string;
  Resolver : iface;
  logger : iface;
  log : iface
}.

Definition set_Type (c : Cluster) (t : ClusterType) : Cluster :=
  mkCluster (Name c) t (Endpoints c) (Domains c) (Resolver c) (logger c) (log c).

Definition set_Endpoints (c : Cluster) (eps : list net.IPNet) : Cluster :=
  mkCluster (Name c) (Type_ c) eps (Domains c) (Resolver c) (logger c) (log c).

Definition set_Domains (c : Cluster) (ds : list string) : Cluster :=
  mkCluster (Name c) (Type_ c) (Endpoints c) ds (Resolver c) (logger c) (log c).

Section ClusterOps.

Context {R : Type} {DR : DnsResolver R} {NT : NetText}.

(** *** Calls on the resolver, recorded in the world *)

Definition do_Unregister (h : string) (w : World R) : World R :=
  mkWorld (Unregister h (resolver w)) (calls w ++ [CallUnregister h]).

Definition is_nil (e : option error) : bool :=
  match e with
  | None => true
  | Some _ => false
  end.

Definition do_Register (h : string) (w : World R) : World R * option error :=
  let '(r, err) := Register h (resolver w) in
  (mkWorld r (calls w ++ [CallRegister h (is_nil err)]), err).

(** *** [Reconcile] *)

(** One iteration of the endpoint loop of the [STATIC] case; [eps] is
    [c.Endpoints]. *)
Definition reconcile_endpoint (eps : list net.IPNet) (e : string)
  : list net.IPNet :=
  match ParseCIDR e with
  | Some (_, n) => eps ++ [n]
  | None =>
      match ParseIP e with
      | None => eps
      | Some a =>
          let e' := match net.To4 a with
                    | None => (e ++ "/128")%string
                    | Some _ => (e ++ "/32")%string
                    end in
          match ParseCIDR e' with
          | None => eps
          | Some (_, n2) => eps ++ [n2]
          end
      end
  end.

Fixpoint reconcile_endpoints (es : list string) (eps : list net.IPNet)
  : list net.IPNet :=
  match es with
  | [] => eps
  | e :: es' => reconcile_endpoints es' (reconcile_endpoint eps e)
  end.

(** The loop over [deleted] of the [STRICT_DNS] case. *)
Fixpoint reconcile_deleted (deleted : list string) (c : Cluster) (w : World R)
  : Cluster * World R :=
  match deleted with
  | [] => (c, w)
  | h :: rest =>
      let w := do_Unregister h w in
      let c := set_Domains c (util.Remove (Domains c) h) in
      reconcile_deleted rest c w
  end.

(** The loop over [added] of the [STRICT_DNS] case. *)
Fixpoint reconcile_added (added : list string) (c : Cluster) (w : World R)
  : Cluster * World R :=
  match added with
  | [] => (c, w)
  | h :: rest =>
      let '(w, err) := do_Register h w in
      let c := if is_nil err then set_Domains c (Domains c ++ [h]) else c in
      reconcile_added rest c w
  end.

(** [c.Reconcile(conf)]: the cluster after the call (it is updated in
    place, also when an error is returned), the world, and the error. *)
Definition Reconcile (conf : Config) (c : Cluster) (w : World R)
  : Outcome (Cluster * World R * option error) :=
  match conf with
  | ClusterConf req =>
      match v1alpha1.Validate req with
      | Some err => Done (c, w, Some err)
      | None =>
          _ <- deref (log c) ;;
          let c := set_Type c (fst (v1alpha1.NewClusterType (v1alpha1.Type_ req))) in
          match Type_ c with
          | ClusterTypeStatic =>
              let c := set_Endpoints c [] in
              let c := set_Endpoints c
                         (reconcile_endpoints (v1alpha1.Endpoints req) (Endpoints c)) in
              Done (c, w, None)
          | ClusterTypeStrictDNS =>
              match Resolver c with
              | Nil => Done (c, w, Some (ErrNoResolver (Name c)))
              | Obj =>
                  let '(deleted, added) :=
                    util.Diff (Domains c) (v1alpha1.Endpoints req) in
                  let '(c, w) := reconcile_deleted deleted c w in
                  let '(c, w) := reconcile_added added c w in
                  Done (c, w, None)
              end
          | ClusterTypeUnknown => Done (c, w, None)
          end
      end
  | _ => Done (c, w, Some ErrInvalidConf)
  end.

(** *** [NewCluster] and the factory *)

(** [NewCluster(conf, resolver, logger)]: the new cluster or the error. *)
Definition NewCluster (conf : Config) (resolver logger : iface) (w : World R)
  : Outcome ((Cluster + error) * World R) :=
  match conf with
  | ClusterConf req =>
      match v1alpha1.Validate req with
      | Some err => Done (inr err, w)
      | None =>
          _ <- deref logger ;;
          let c := mkCluster (v1alpha1.Name req) ClusterTypeUnknown [] []
                             resolver logger Obj in
          '(c, w, err) <- Reconcile (ClusterConf req) c w ;;
          match err with
          | Some e =>
              if error_eqb e ErrRestartRequired then Done (inl c, w)
              else Done (inr e, w)
          | None => Done (inl c, w)
          end
      end
  | _ => Done (inr ErrInvalidConf, w)
  end.

(** [c.Inspect(old, new)]. *)
Definition Inspect (c : Cluster) (old new : Config) : bool := false.

(** [c.ObjectName()]. *)
Definition ObjectName (c : Cluster) : string := Name c.

Record ClusterFactory : Type := mkClusterFactory {
  factory_resolver : iface;
  factory_logger : iface
}.

Definition NewClusterFactory (resolver logger : iface) : ClusterFactory :=
  mkClusterFactory resolver logger.

(** The zero value [Cluster{}]; its [Type] is the zero [ClusterType],
    which is neither of the two named types. *)
Definition zero_Cluster : Cluster :=
  mkCluster "" ClusterTypeUnknown [] [] Nil Nil Nil.

(** [f.New(conf)]. *)
Definition Factory_New (f : ClusterFactory) (conf : Config) (w : World R)
  : Outcome ((Cluster + error) * World R) :=
  match conf with
  | NilConfig => Done (inl zero_Cluster, w)
  | _ => NewCluster conf (factory_resolver f) (factory_logger f) w
  end.

(** *** [GetConfig] *)

Definition GetConfig (c : Cluster) : v1alpha1.ClusterConfig :=
  let conf := v1alpha1.mkClusterConfig
                (Name c) (v1alpha1.ClusterType_String (Type_ c)) [] in
  match Type_ c with
  | ClusterTypeStatic =>
      v1alpha1.mkClusterConfig (v1alpha1.Name conf) (v1alpha1.Type_ conf)
        (map IPNet_String (Endpoints c))
  | ClusterTypeStrictDNS =>
      v1alpha1.mkClusterConfig (v1alpha1.Name conf) (v1alpha1.Type_ conf)
        (sort.StringSlice (Domains c))
  | ClusterTypeUnknown => conf
  end.

(** *** [Close] *)

(** The loop over [c.Domains] in [Close]. *)
Fixpoint close_domains (res : iface) (ds : list string) (w : World R)
  : Outcome (World R) :=
  match ds with
  | [] => Done w
  | d :: rest =>
      _ <- deref res ;;
      close_domains res rest (do_Unregister d w)
  end.

(** [c.Close()]; the cluster itself is not modified. *)
Definition Close (c : Cluster) (w : World R) : Outcome (World R * option error) :=
  _ <- deref (log c) ;;
  match Type_ c with
  | ClusterTypeStatic => Done (w, None)
  | ClusterTypeStrictDNS =>
      w <- close_domains (Resolver c) (Domains c) w ;;
      Done (w, None)
  | ClusterTypeUnknown => Done (w, None)
  end.

(** *** [Route] *)

(** The loop over [c.Endpoints]: the first subnet that contains the peer
    returns true. *)
Fixpoint route_endpoints (eps : list net.IPNet) (peer : net.IP) : bool :=
  match eps with
  | [] => false
  | e :: rest => if net.Contains e peer then true else route_endpoints rest peer
  end.

(** The inner loop over the addresses [hs] of one domain. *)
Fixpoint route_addresses (hs : list net.IP) (peer : net.IP) : bool :=
  match hs with
  | [] => false
  | n :: rest => if net.Equal n peer then true else route_addresses rest peer
  end.

(** The loop over [c.Domains]: the lookup error is only logged, the
    addresses returned by the lookup are scanned in either case. *)
Fixpoint route_domains (res : iface) (ds : list string) (r : R) (peer : net.IP)
  : Outcome bool :=
  match ds with
  | [] => Done false
  | d :: rest =>
      _ <- deref res ;;
      let '(hs, err) := Lookup d r in
      if route_addresses hs peer then Done true
      else route_domains res rest r peer
  end.

(** [c.Route(peer)], against the resolver state [r]. *)
Definition Route (c : Cluster) (r : R) (peer : net.IP) : Outcome bool :=
  _ <- deref (log c) ;;
  match Type_ c with
  | ClusterTypeStatic => Done (route_endpoints (Endpoints c) peer)
  | ClusterTypeStrictDNS => route_domains (Resolver c) (Domains c) r peer
  | ClusterTypeUnknown => Done false
  end.

End ClusterOps.


(* ===================================================================== *)
(** ** Specification vocabulary *)
(* ===================================================================== *)

Definition set_equal {A : Type} (l1 l2 : list A) : Prop :=
  forall x, In x l1 <-> In x l2.


(** The list is in ascending lexicographic order. *)
Fixpoint sorted_strings (l : list string) : bool :=
  match l with
  | [] => true
  | x :: rest =>
      match rest with
      | [] => true
      | y :: _ => String.leb x y && sorted_strings rest
      end
  end.

Section ClusterSpec.

Context {R : Type} {DR : DnsResolver R} {NT : NetText}.

(** *** The parse chain of a STATIC endpoint literal, in the words of the
    specification *)

Definition is_IPv4 (a : net.IP) : bool :=
  match net.To4 a with
  | Some _ => true
  | None => false
  end.

(** (a) the literal as a CIDR subnet; (b) else the literal as a bare
    address, turned into a host subnet by appending [/32] (IPv4) or
    [/128] (IPv6) and parsed as CIDR; (c) else nothing. *)
Definition parse_chain (e : string) : option net.IPNet :=
  match ParseCIDR e with
  | Some p => Some (snd p)
  | None =>
      match ParseIP e with
      | Some a =>
          let host := (e ++ (if is_IPv4 a then "/32" else "/128"))%string in
          option_map snd (ParseCIDR host)
      | None => None
      end
  end.

(** The subnets of the literals that parse, in the order of the list. *)
Definition parsed_subnets (es : list string) : list net.IPNet :=
  flat_map (fun e => match parse_chain e with
                     | Some n => [n]
                     | None => []
                     end) es.

(** *** The registrations a cluster holds *)

(** One registration of [d] is given up. *)
Fixpoint discharge (d : string) (reg : list string) : list string :=
  match reg with
  | [] => []
  | x :: rest => if String.eqb x d then rest else x :: discharge d rest
  end.

Definition record_call (reg : list string) (k : Call) : list string :=
  match k with
  | CallRegister d true => reg ++ [d]
  | CallRegister d false => reg
  | CallUnregister d => discharge d reg
  end.

(** The registrations outstanding on behalf of the cluster after the
    calls [ks]: every successful [Register] adds one, every [Unregister]
    gives one up. *)
Definition registered (ks : list Call) : list string :=
  fold_left record_call ks [].

(** The outcomes of registering the domains [added] one after the other,
    from resolver state [r]. *)
Fixpoint register_outcomes (added : list string) (r : R) : list (string * bool) :=
  match added with
  | [] => []
  | h :: rest =>
      let '(r', err) := Register h r in
      (h, is_nil err) :: register_outcomes rest r'
  end.

Definition call_of_outcome (p : string * bool) : Call :=
  CallRegister (fst p) (snd p).

(** The calls made since the world [w] by the time of [w']. *)
Definition calls_since (w w' : World R) : list Call :=
  skipn (length (calls w)) (calls w').

(** The world after unregistering the domains [hs] one after the other. *)
Definition unregister_all (hs : list string) (w : World R) : World R :=
  fold_left (fun w h => do_Unregister h w) hs w.

(** The domains kept, the domains dropped and the registration outcomes
    of a reconcile from [D] to the requested list [Rq]. *)
Definition kept (D Rq : list string) : list string :=
  filter (fun x => util.mem x Rq) D.

Definition outcomes (D Rq : list string) (w : World R) : list (string * bool) :=
  register_outcomes (snd (util.Diff D Rq))
    (resolver (unregister_all (fst (util.Diff D Rq)) w)).

(** The resolver after registering the domains [added] one after the
    other. *)
Fixpoint register_all (added : list string) (r : R) : R :=
  match added with
  | [] => r
  | h :: rest => register_all rest (fst (Register h r))
  end.

(** [Domains] and the world after a STRICT_DNS reconcile from the
    domains [D] to the requested list [Rq]. *)
Definition reconciled_domains (D Rq : list string) (w : World R) : list string :=
  kept D Rq ++ map fst (filter snd (outcomes D Rq w)).

Definition reconciled_world (D Rq : list string) (w : World R) : World R :=
  mkWorld
    (register_all (snd (util.Diff D Rq))
       (resolver (unregister_all (fst (util.Diff D Rq)) w)))
    (calls w ++ map CallUnregister (fst (util.Diff D Rq)) ++
     map call_of_outcome (outcomes D Rq w)).

(** *** Clusters in operation *)

(** What [NewCluster] establishes and [Reconcile] keeps: the cluster has
    its logger, and it holds domains only if it has a resolver. *)
Definition operating (c : Cluster) : Prop :=
  log c = Obj /\ (Resolver c = Nil -> Domains c = []).

(** The states of a cluster and its world that [NewCluster] followed by
    any number of [Reconcile] calls can produce, while the shared
    resolver changes state on its own in between. *)
Inductive reachable : Cluster -> World R -> Prop :=
| reach_new conf res lg w0 c w :
    calls w0 = [] ->
    NewCluster conf res lg w0 = Done (inl c, w) ->
    reachable c w
| reach_reconcile conf c w c' w' e :
    reachable c w ->
    Reconcile conf c w = Done (c', w', e) ->
    reachable c' w'
| reach_resolver c w r' :
    reachable c w ->
    reachable c (mkWorld r' (calls w)).

(** The four ways in which [Reconcile] returns. *)
Inductive reconcile_case (conf : Config) (c : Cluster) (w : World R)
  : Cluster -> World R -> option error -> Prop :=
| rc_rejected e :
    ((forall req, conf <> ClusterConf req) /\ e = ErrInvalidConf
     \/ exists req, conf = ClusterConf req /\ v1alpha1.Validate req = Some e) ->
    reconcile_case conf c w c w (Some e)
| rc_static req :
    conf = ClusterConf req ->
    v1alpha1.Name req <> "" -> v1alpha1.Type_ req = "STATIC" -> log c = Obj ->
    reconcile_case conf c w
      (set_Endpoints (set_Type c ClusterTypeStatic)
         (parsed_subnets (v1alpha1.Endpoints req)))
      w None
| rc_no_resolver req :
    conf = ClusterConf req ->
    v1alpha1.Name req <> "" -> v1alpha1.Type_ req = "STRICT_DNS" ->
    log c = Obj -> Resolver c = Nil ->
    reconcile_case conf c w (set_Type c ClusterTypeStrictDNS) w
      (Some (ErrNoResolver (Name c)))
| rc_strict_dns req :
    conf = ClusterConf req ->
    v1alpha1.Name req <> "" -> v1alpha1.Type_ req = "STRICT_DNS" ->
    log c = Obj -> Resolver c = Obj ->
    reconcile_case conf c w
      (set_Domains (set_Type c ClusterTypeStrictDNS)
         (reconciled_domains (Domains c) (v1alpha1.Endpoints req) w))
      (reconciled_world (Domains c) (v1alpha1.Endpoints req) w)
      None.

(** The two causes of an error of [Reconcile] that the specification
    names: an unrecognized type literal, and STRICT_DNS on a cluster
    without a resolver. *)
Definition named_error_cause (conf : Config) (c : Cluster) : Prop :=
  exists req,
    conf = ClusterConf req /\
    (snd (v1alpha1.NewClusterType (v1alpha1.Type_ req)) <> None
     \/ (v1alpha1.Type_ req = "STRICT_DNS" /\ Resolver c = Nil)).

(** *** [Reconcile] statement by statement *)

(** [c.Endpoints] after each iteration of the endpoint loop. *)
Fixpoint endpoints_snapshots (es : list string) (eps : list net.IPNet)
  : list (list net.IPNet) :=
  match es with
  | [] => []
  | e :: es' =>
      let eps' := reconcile_endpoint eps e in
      eps' :: endpoints_snapshots es' eps'
  end.

(** Cluster and world after each statement of the loop over [deleted]. *)
Fixpoint deleted_snapshots (deleted : list string) (c : Cluster) (w : World R)
  : list (Cluster * World R) :=
  match deleted with
  | [] => []
  | h :: rest =>
      let w1 := do_Unregister h w in
      let c1 := set_Domains c (util.Remove (Domains c) h) in
      (c, w1) :: (c1, w1) :: deleted_snapshots rest c1 w1
  end.

(** Cluster and world after each statement of the loop over [added]. *)
Fixpoint added_snapshots (added : list string) (c : Cluster) (w : World R)
  : list (Cluster * World R) :=
  match added with
  | [] => []
  | h :: rest =>
      let '(w1, err) := do_Register h w in
      let c1 := if is_nil err then set_Domains c (Domains c ++ [h]) else c in
      (c, w1) :: (c1, w1) :: added_snapshots rest c1 w1
  end.

(** Cluster and world after each statement of [Reconcile] that writes a
    field of the cluster or calls the resolver. *)
Definition Reconcile_snapshots (conf : Config) (c : Cluster) (w : World R)
  : list (Cluster * World R) :=
  match conf with
  | ClusterConf req =>
      match v1alpha1.Validate req, log c with
      | None, Obj =>
          let c1 := set_Type c (fst (v1alpha1.NewClusterType (v1alpha1.Type_ req))) in
          (c1, w) ::
          match Type_ c1 with
          | ClusterTypeStatic =>
              let c2 := set_Endpoints c1 [] in
              (c2, w) ::
              map (fun eps => (set_Endpoints c2 eps, w))
                  (endpoints_snapshots (v1alpha1.Endpoints req) (Endpoints c2))
          | ClusterTypeStrictDNS =>
              match Resolver c1 with
              | Nil => []
              | Obj =>
                  let '(deleted, added) :=
                    util.Diff (Domains c1) (v1alpha1.Endpoints req) in
                  let '(c2, w2) := reconcile_deleted deleted c1 w in
                  deleted_snapshots deleted c1 w ++ added_snapshots added c2 w2
              end
          | ClusterTypeUnknown => []
          end
      | _, _ => []
      end
  | _ => []
  end.

(** The states a [Route] call can find the cluster in when it runs
    between two statements of a concurrent [Reconcile]: the state before
    the call and the state after each of its statements. *)
Definition observable (conf : Config) (c : Cluster) (w : World R)
  : list (Cluster * World R) :=
  (c, w) :: Reconcile_snapshots conf c w.

(** One generation of the endpoint state. *)
Definition generation (c : Cluster) : ClusterType * list net.IPNet * list string :=
  (Type_ c, Endpoints c, Domains c).

End ClusterSpec.
(* ===================================================================== *)
(** ** An IPv4 instance of the textual interface *)
(* ===================================================================== *)

(** The dotted-decimal literals of [net.ParseIP] and [net.ParseCIDR] and
    the text of an IPv4 subnet.  Literals in any other form are rejected
    by this instance; it serves the examples on IPv4 literals. *)
Module ipv4.

Definition digit (ch : ascii) : option nat :=
  let n := nat_of_ascii ch in
  if Nat.leb 48 n && Nat.leb n 57 then Some (n - 48) else None.

(** Decimal digits of [s] read into [acc]; fails on any other byte. *)
Fixpoint digits (s : string) (acc : nat) : option nat :=
  match s with
  | EmptyString => Some acc
  | String ch rest =>
      match digit ch with
      | Some d => digits rest (10 * acc + d)
      | None => None
      end
  end.

(** One field of a dotted-decimal address: decimal digits, no leading zero
    on a field of several digits, at most 255. *)
Definition octet (s : string) : option N :=
  match s with
  | EmptyString => None
  | String ch rest =>
      if Ascii.eqb ch "0" && negb (String.eqb rest "") then None
      else match digits s 0 with
           | Some v => if Nat.leb v 255 then Some (N.of_nat v) else None
           | None => None
           end
  end.

(** The fields of [s] between occurrences of [sep]; [cur] is the field
    being read, reversed. *)
Fixpoint split_rev (sep : ascii) (s : string) (cur : string) : list string :=
  match s with
  | EmptyString => [cur]
  | String ch rest =>
      if Ascii.eqb ch sep then cur :: split_rev sep rest ""
      else split_rev sep rest (cur ++ String ch "")%string
  end.

Definition split (sep : ascii) (s : string) : list string := split_rev sep s "".

Definition parseIPv4 (s : string) : option (list N) :=
  match map octet (split "." s) with
  | [Some a; Some b; Some c; Some d] => Some [a; b; c; d]
  | _ => None
  end.

(** [net.ParseIP] on a dotted-decimal literal: the 16-byte form. *)
Definition ParseIP (s : string) : option net.IP :=
  match parseIPv4 s with
  | Some v4 => Some (net.v4InV6Prefix ++ v4)
  | None => None
  end.

(** [net.ParseCIDR] on [a.b.c.d/len]: the address, and the subnet with
    the address masked to [len] bits. *)
Definition ParseCIDR (s : string) : option (net.IP * net.IPNet) :=
  match split "/" s with
  | [addr; mask] =>
      match parseIPv4 addr, mask with
      | Some v4, String _ _ =>
          match digits mask 0 with
          | Some n =>
              if Nat.leb n 32 then
                let m := net.CIDRMask n 32 in
                Some (net.v4InV6Prefix ++ v4, net.mkIPNet (net.IP_Mask v4 m) m)
              else None
          | None => None
          end
      | _, _ => None
      end
  | _ => None
  end.

Definition decimal (n : nat) : string :=
  DecimalString.NilZero.string_of_uint (Nat.to_uint n).

Definition dotted (ip : list N) : string :=
  String.concat "." (map (fun b => decimal (N.to_nat b)) ip).

(** [simpleMaskLength] of a 4-byte mask. *)
Definition maskLength (m : net.IPMask) : option nat :=
  find (fun n => net.bytes_eqb (net.CIDRMask n 32) m) (seq 0 33).

(** [IPNet.String] of an IPv4 subnet with a canonical mask. *)
Definition IPNet_String (n : net.IPNet) : string :=
  let '(nn, m) := net.networkNumberAndMask n in
  match Nat.eqb (length nn) 4, maskLength m with
  | true, Some l => (dotted nn ++ "/" ++ decimal l)%string
  | _, _ => "<nil>"
  end.

End ipv4.

#[export] Instance ipv4_text : NetText := {
  ParseCIDR := ipv4.ParseCIDR;
  ParseIP := ipv4.ParseIP;
  IPNet_String := ipv4.IPNet_String
}.

(* ===================================================================== *)
(** ** A table-driven resolver *)
(* ===================================================================== *)

(** A resolver in the style of the mock resolver of the test suites: a
    fixed table of host addresses, the list of registered domains, and a
    number of calls during which the resolver is not yet running and
    [Register] fails. *)
Module mock.

Record state : Type := mkState {
  hosts : list (string * list net.IP);
  registry : list string;
  starting : nat
}.

Fixpoint assoc (d : string) (t : list (string * list net.IP)) : option (list net.IP) :=
  match t with
  | [] => None
  | (k, v) :: rest => if String.eqb k d then Some v else assoc d rest
  end.

Definition Register (d : string) (s : state) : state * option error :=
  match starting s with
  | S k => (mkState (hosts s) (registry s) k, Some (ErrResolver "resolver not running"))
  | O =>
      if String.eqb d "" then (s, Some (ErrResolver "invalid domain name"))
      else if util.mem d (registry s) then (s, None)
      else (mkState (hosts s) (registry s ++ [d]) 0, None)
  end.

Definition Unregister (d : string) (s : state) : state :=
  mkState (hosts s) (filter (fun x => negb (String.eqb x d)) (registry s)) (starting s).

Definition Lookup (d : string) (s : state) : list net.IP * option error :=
  if util.mem d (registry s) then
    match assoc d (hosts s) with
    | Some hs => (hs, None)
    | None => ([], Some (ErrResolver "unresolved domain name"))
    end
  else ([], Some (ErrResolver "unknown domain name")).

End mock.

#[export] Instance mock_resolver : DnsResolver mock.state := {
  Register := mock.Register;
  Unregister := mock.Unregister;
  Lookup := mock.Lookup
}.


(* ===================================================================== *)
(** ** Example configurations *)
(* ===================================================================== *)

Module example.

Definition addr (a b c d : N) : net.IP := [a; b; c; d].

(** A resolver that knows three hosts and is running. *)
Definition dns : mock.state :=
  mock.mkState
    [("a.com", [addr 10 0 0 1]); ("b.com", [addr 10 0 0 2]);
     ("c.com", [addr 10 0 0 3; addr 10 0 0 4])]
    [] 0.


Definition world (r : mock.state) : World mock.state := mkWorld r [].

Definition static_conf (endpoints : list string) : Config :=
  ClusterConf (v1alpha1.mkClusterConfig "media" "STATIC" endpoints).

Definition dns_conf (domains : list string) : Config :=
  ClusterConf (v1alpha1.mkClusterConfig "media" "STRICT_DNS" domains).

(** A cluster of the given type, endpoints and domains, with resolver
    and logger in place. *)
Definition cluster (t : ClusterType) (eps : list net.IPNet) (ds : list string)
  : Cluster :=
  mkCluster "media" t eps ds Obj Obj Obj.

Definition subnet (a b c d : N) (ones : nat) : net.IPNet :=
  let m := net.CIDRMask ones 32 in
  net.mkIPNet (net.IP_Mask (addr a b c d) m) m.

(** The running resolver with the domains [registry] registered. *)
Definition dns_with (registry : list string) : mock.state :=
  mock.mkState (mock.hosts dns) registry 0.


(** The world of a cluster that has registered [a.com] and [b.com]. *)
Definition world_ab : World mock.state :=
  mkWorld (dns_with ["a.com"; "b.com"])
          [CallRegister "a.com" true; CallRegister "b.com" true].

End example.

(* ===================================================================== *)
(** ** The monitoring backend *)
(* ===================================================================== *)

(** Go's [net/url]: what [NewBackend] reads off a parsed URL.  [Parse] is
    taken as an interface; it yields the URL or fails. *)
Module url.

Record URL : Type := mkURL {
  Hostname : string;
  Port : string;
  EscapedPath : string
}.

End url.

Class UrlText : Type := {
  url_Parse : string -> option url.URL
}.

Module monitoring.

(** An [*http.Server] made by [NewBackend]: the allocation it is, its
    [Addr], and the pattern under which its mux serves the metrics
    handler. *)
Record Server : Type := mkServer {
  server_id : nat;
  Addr : string;
  Pattern : string
}.

Record Backend : Type := mkBackend {
  httpServer : option Server;
  Endpoint : string
}.

(** The error of [NewBackend]: [unable to parse: <endpoint>]. *)
Inductive parse_error : Type :=
| UnableToParse (endpoint : string).

(** What the backend does to its servers: [ListenAndServe] launched in a
    goroutine, and [Shutdown]. *)
Inductive Event : Type :=
| ListenAndServe (s : Server)
| Shutdown (s : Server).

(** The servers allocated so far and the events so far, oldest first. *)
Record World : Type := mkWorld {
  allocated : nat;
  events : list Event
}.

Section Backend.

Context {UT : UrlText}.

(** [NewBackend(endpoint)]: the backend, the error, and the world (a
    server may have been allocated). *)
Definition NewBackend (endpoint : string) (w : World)
  : Backend * option parse_error * World :=
  match url_Parse endpoint with
  | None => (mkBackend None endpoint, Some (UnableToParse endpoint), w)
  | Some u =>
      let addr := url.Hostname u in
      if String.eqb addr "" then (mkBackend None endpoint, None, w)
      else
        let port := url.Port u in
        let addr := if negb (String.eqb port "")
                    then (addr ++ ":" ++ port)%string else addr in
        let path := url.EscapedPath u in
        let path := if String.eqb path "" then "/metrics" else path in
        let server := mkServer (allocated w) addr path in
        (mkBackend (Some server) endpoint, None,
         mkWorld (S (allocated w)) (events w))
  end.

(** [b.Start()]. *)
Definition Start (b : Backend) (w : World) : World :=
  match httpServer b with
  | None => w
  | Some s => mkWorld (allocated w) (events w ++ [ListenAndServe s])
  end.

(** [b.Stop()]. *)
Definition Stop (b : Backend) (w : World) : World :=
  match httpServer b with
  | None => w
  | Some s => mkWorld (allocated w) (events w ++ [Shutdown s])
  end.

(** [b.Reload(endpoint, log)]: the backend returned. *)
Definition Reload (b : Backend) (endpoint : string) (log : iface) (w : World)
  : Outcome (Backend * World) :=
  if String.eqb endpoint "" then
    let w := Stop b w in
    Done (b, w)
  else
    if negb (String.eqb (Endpoint b) endpoint) then
      let w := Stop b w in
      let '(m, err, w) := NewBackend endpoint w in
      match err with
      | None =>
          let b := m in
          let w := Start b w in
          Done (b, w)
      | Some _ =>
          _ <- deref log ;;
          Done (b, w)
      end
    else Done (b, w).

End Backend.

(** *** Which servers are serving *)

(** The servers serving and the servers closed after the events: a
    launched server serves unless it was shut down before; a server shut
    down stops serving and stays closed. *)
Definition step_serving (st : list nat * list nat) (ev : Event)
  : list nat * list nat :=
  let '(serving, closed) := st in
  match ev with
  | ListenAndServe s =>
      if existsb (Nat.eqb (server_id s)) closed then (serving, closed)
      else (server_id s :: serving, closed)
  | Shutdown s =>
      (filter (fun i => negb (Nat.eqb i (server_id s))) serving,
       server_id s :: closed)
  end.

Definition serving_state (evs : list Event) : list nat * list nat :=
  fold_left step_serving evs ([], []).

Definition serving (w : World) : list nat := fst (serving_state (events w)).

(** The only server that may be serving is the one the backend holds, and
    every server known to the world has been allocated. *)
Definition tidy (b : Backend) (w : World) : Prop :=
  (forall i, In i (serving w) ->
     exists s, httpServer b = Some s /\ server_id s = i)
  /\ (forall s, httpServer b = Some s -> server_id s < allocated w)
  /\ (forall i, In i (snd (serving_state (events w))) -> i < allocated w).

End monitoring.

(** A table-driven stand-in for [url.Parse]: the results of [net/url] on
    the endpoints of the examples; an endpoint outside the table does not
    parse. *)
Module url_table.

Definition known : list (string * url.URL) :=
  [("http://0.0.0.0:8080/metrics", url.mkURL "0.0.0.0" "8080" "/metrics");
   ("http://localhost", url.mkURL "localhost" "" "");
   ("http://:9090/status", url.mkURL "" "9090" "/status");
   ("metrics", url.mkURL "" "" "metrics")].

Fixpoint assoc (s : string) (t : list (string * url.URL)) : option url.URL :=
  match t with
  | [] => None
  | (k, u) :: rest => if String.eqb k s then Some u else assoc s rest
  end.

Definition Parse (s : string) : option url.URL := assoc s known.

End url_table.

#[export] Instance table_urls : UrlText := {
  url_Parse := url_table.Parse
}.

(** A backend serving at [http://localhost] and its world: one server
    made and launched. *)
Module backend_example.

Definition server0 : monitoring.Server :=
  monitoring.mkServer 0 "localhost" "/metrics".

Definition backend0 : monitoring.Backend :=
  monitoring.mkBackend (Some server0) "http://localhost".

Definition world0 : monitoring.World :=
  monitoring.mkWorld 1 [monitoring.ListenAndServe server0].

End backend_example.

(** A STATIC cluster that was made without a resolver. *)
Definition static_without_resolver : Cluster :=
  mkCluster "media" ClusterTypeStatic [example.subnet 10 0 0 0 24] [] Nil Obj Obj.
(* ===================================================================== *)
(** ** Properties of [Route] *)
(* ===================================================================== *)

Unset Implicit Arguments.

Section RouteTheory.

Context {R : Type} {DR : DnsResolver R} {NT : NetText}.

Lemma route_endpoints_true (eps : list net.IPNet) (peer : net.IP) :
  route_endpoints eps peer = true <->
  exists e, In e eps /\ net.Contains e peer = true.
Proof.
  induction eps as [|e rest IH]; simpl.
  - split; [discriminate | intros [e [[] _]]].
  - destruct (net.Contains e peer) eqn:He.
    + split; [intros _; exists e; auto | reflexivity].
    + rewrite IH. split.
      * intros [e' [Hin Hc]]. exists e'. auto.
      * intros [e' [[Heq | Hin] Hc]]; [subst; congruence | exists e'; auto].
Qed.

Lemma route_endpoints_first_match (pre post : list net.IPNet) (e : net.IPNet)
    (peer : net.IP) :
  net.Contains e peer = true ->
  route_endpoints (pre ++ e :: post) peer = true.
Proof.
  intros He. apply route_endpoints_true. exists e. split; [|exact He].
  apply in_or_app. right. left. reflexivity.
Qed.

Lemma route_addresses_true (hs : list net.IP) (peer : net.IP) :
  route_addresses hs peer = true <->
  exists n, In n hs /\ net.Equal n peer = true.
Proof.
  induction hs as [|n rest IH]; simpl.
  - split; [discriminate | intros [n [[] _]]].
  - destruct (net.Equal n peer) eqn:Hn.
    + split; [intros _; exists n; auto | reflexivity].
    + rewrite IH. split.
      * intros [n' [Hin Hc]]. exists n'. auto.
      * intros [n' [[Heq | Hin] Hc]]; [subst; congruence | exists n'; auto].
Qed.

(** With a resolver in place the domain loop never panics; it is the
    disjunction of the address scans, whatever the lookup errors. *)
Lemma route_domains_Obj (ds : list string) (r : R) (peer : net.IP) :
  route_domains Obj ds r peer =
  Done (existsb (fun d => route_addresses (fst (Lookup d r)) peer) ds).
Proof.
  induction ds as [|d rest IH]; simpl; [reflexivity|].
  destruct (Lookup d r) as [hs err]; simpl.
  destruct (route_addresses hs peer); [reflexivity | exact IH].
Qed.

Lemma route_domains_true (ds : list string) (r : R) (peer : net.IP) :
  route_domains Obj ds r peer = Done true <->
  exists d n, In d ds /\ In n (fst (Lookup d r)) /\ net.Equal n peer = true.
Proof.
  rewrite route_domains_Obj. split.
  - intros H. injection H as H. apply existsb_exists in H.
    destruct H as [d [Hd Ha]]. apply route_addresses_true in Ha.
    destruct Ha as [n [Hn He]]. exists d, n. auto.
  - intros [d [n [Hd [Hn He]]]]. f_equal. apply existsb_exists.
    exists d. split; [exact Hd|]. apply route_addresses_true. exists n. auto.
Qed.

Lemma route_domains_empty (res : iface) (r : R) (peer : net.IP) :
  route_domains res [] r peer = Done false.
Proof. reflexivity. Qed.

(** C1. For a cluster of type STATIC (with its logger in place, as every
    cluster made by [NewCluster] has), [Route] returns, and it returns
    true exactly when the peer lies inside at least one subnet of
    [Endpoints]; a match decides the result whatever follows it in the
    list; and a cluster with no endpoints and no domains returns false
    for every peer, whatever its type. *)
Theorem Route_static_membership (c : Cluster) (r : R) (peer : net.IP) :
  log c = Obj ->
  (Type_ c = ClusterTypeStatic ->
     (exists b, Route c r peer = Done b /\
        (b = true <-> exists e, In e (Endpoints c) /\ net.Contains e peer = true))
     /\ (forall pre e post, Endpoints c = pre ++ e :: post ->
           net.Contains e peer = true -> Route c r peer = Done true))
  /\ (Endpoints c = [] -> Domains c = [] -> Route c r peer = Done false).
Proof.
  intros Hlog. split.
  - intros Ht. split.
    + exists (route_endpoints (Endpoints c) peer).
      unfold Route. rewrite Hlog, Ht. simpl. split; [reflexivity|].
      apply route_endpoints_true.
    + intros pre e post Heps He. unfold Route. rewrite Hlog, Ht, Heps. simpl.
      f_equal. apply route_endpoints_first_match. exact He.
  - intros He Hd. unfold Route. rewrite Hlog, He, Hd. simpl.
    destruct (Type_ c); reflexivity.
Qed.


End RouteTheory.

(* ===================================================================== *)
(** ** Properties of [Reconcile] *)
(* ===================================================================== *)

Section ReconcileTheory.

Context {R : Type} {DR : DnsResolver R} {NT : NetText}.

(** *** Validation *)

Lemma NewClusterType_static :
  v1alpha1.NewClusterType "STATIC" = (ClusterTypeStatic, None).
Proof. reflexivity. Qed.

Lemma NewClusterType_strict_dns :
  v1alpha1.NewClusterType "STRICT_DNS" = (ClusterTypeStrictDNS, None).
Proof. reflexivity. Qed.

Lemma NewClusterType_cases (raw : string) :
  (raw = "STATIC" /\ v1alpha1.NewClusterType raw = (ClusterTypeStatic, None))
  \/ (raw = "STRICT_DNS" /\
      v1alpha1.NewClusterType raw = (ClusterTypeStrictDNS, None))
  \/ (raw <> "STATIC" /\ raw <> "STRICT_DNS" /\
      v1alpha1.NewClusterType raw =
        (ClusterTypeUnknown, Some (ErrUnknownClusterType raw))).
Proof.
  unfold v1alpha1.NewClusterType.
  destruct (String.eqb_spec raw "STATIC") as [H1|H1]; [left; auto|].
  destruct (String.eqb_spec raw "STRICT_DNS") as [H2|H2]; [right; left; auto|].
  right; right; auto.
Qed.

Lemma Validate_ok (req : v1alpha1.ClusterConfig) :
  v1alpha1.Validate req = None <->
  v1alpha1.Name req <> "" /\
  (v1alpha1.Type_ req = "STATIC" \/ v1alpha1.Type_ req = "STRICT_DNS").
Proof.
  unfold v1alpha1.Validate.
  destruct (String.eqb_spec (v1alpha1.Name req) "") as [Hn|Hn].
  - split; [discriminate | intros [H _]; contradiction].
  - destruct (NewClusterType_cases (v1alpha1.Type_ req))
      as [[Ht Hc] | [[Ht Hc] | [Ht1 [Ht2 Hc]]]]; rewrite Hc; simpl.
    + split; auto.
    + split; auto.
    + split; [discriminate | intros [_ [H|H]]; contradiction].
Qed.

Lemma Validate_error (req : v1alpha1.ClusterConfig) (e : error) :
  v1alpha1.Validate req = Some e <->
  (v1alpha1.Name req = "" /\ e = ErrMissingName)
  \/ (v1alpha1.Name req <> "" /\ v1alpha1.Type_ req <> "STATIC" /\
      v1alpha1.Type_ req <> "STRICT_DNS" /\
      e = ErrUnknownClusterType (v1alpha1.Type_ req)).
Proof.
  unfold v1alpha1.Validate.
  destruct (String.eqb_spec (v1alpha1.Name req) "") as [Hn|Hn].
  - split.
    + intros H. injection H as <-. left. auto.
    + intros [[_ ->] | [H _]]; [reflexivity | contradiction].
  - destruct (NewClusterType_cases (v1alpha1.Type_ req))
      as [[Ht Hc] | [[Ht Hc] | [Ht1 [Ht2 Hc]]]]; rewrite Hc; simpl.
    + split; [discriminate|]. intros [[H _] | [_ [H _]]]; contradiction.
    + split; [discriminate|]. intros [[H _] | [_ [_ [H _]]]]; contradiction.
    + split.
      * intros H. injection H as <-. right. auto.
      * intros [[H _] | [_ [_ [_ ->]]]]; [contradiction | reflexivity].
Qed.

(** *** The STATIC case *)

Lemma reconcile_endpoint_chain (eps : list net.IPNet) (e : string) :
  reconcile_endpoint eps e =
  eps ++ match parse_chain e with
         | Some n => [n]
         | None => []
         end.
Proof.
  unfold reconcile_endpoint, parse_chain, is_IPv4.
  destruct (ParseCIDR e) as [[ip n]|]; [reflexivity|].
  destruct (ParseIP e) as [a|]; [|symmetry; apply app_nil_r].
  destruct (net.To4 a); simpl.
  - destruct (ParseCIDR (e ++ "/32")) as [[ip n]|]; simpl;
      [reflexivity | symmetry; apply app_nil_r].
  - destruct (ParseCIDR (e ++ "/128")) as [[ip n]|]; simpl;
      [reflexivity | symmetry; apply app_nil_r].
Qed.

Lemma reconcile_endpoints_chain (es : list string) (eps : list net.IPNet) :
  reconcile_endpoints es eps = eps ++ parsed_subnets es.
Proof.
  revert eps. induction es as [|e es IH]; intros eps; simpl.
  - symmetry. apply app_nil_r.
  - rewrite IH, reconcile_endpoint_chain, <- app_assoc. reflexivity.
Qed.

Lemma parsed_subnets_In (es : list string) (n : net.IPNet) :
  In n (parsed_subnets es) <-> exists e, In e es /\ parse_chain e = Some n.
Proof.
  unfold parsed_subnets. rewrite in_flat_map. split.
  - intros [e [He Hn]]. exists e. split; [exact He|].
    destruct (parse_chain e) as [m|]; simpl in Hn; [|contradiction].
    destruct Hn as [->|[]]. reflexivity.
  - intros [e [He Hn]]. exists e. split; [exact He|].
    rewrite Hn. left. reflexivity.
Qed.


Lemma Reconcile_static_eq (req : v1alpha1.ClusterConfig) (c : Cluster)
    (w : World R) :
  v1alpha1.Name req <> "" -> v1alpha1.Type_ req = "STATIC" -> log c = Obj ->
  Reconcile (ClusterConf req) c w =
  Done (set_Endpoints (set_Type c ClusterTypeStatic)
          (parsed_subnets (v1alpha1.Endpoints req)), w, None).
Proof.
  intros Hn Ht Hl. unfold Reconcile.
  assert (Hv : v1alpha1.Validate req = None) by (apply Validate_ok; auto).
  rewrite Hv, Hl, Ht. simpl.
  rewrite reconcile_endpoints_chain. reflexivity.
Qed.


(** *** Errors *)

Lemma Reconcile_not_cluster_conf (conf : Config) (c : Cluster) (w : World R) :
  (forall req, conf <> ClusterConf req) ->
  Reconcile conf c w = Done (c, w, Some ErrInvalidConf).
Proof.
  intros H. destruct conf as [|req|]; try reflexivity.
  exfalso. apply (H req). reflexivity.
Qed.

Lemma Reconcile_invalid (req : v1alpha1.ClusterConfig) (c : Cluster)
    (w : World R) (e : error) :
  v1alpha1.Validate req = Some e ->
  Reconcile (ClusterConf req) c w = Done (c, w, Some e).
Proof. intros H. unfold Reconcile. rewrite H. reflexivity. Qed.

Lemma Reconcile_no_resolver (req : v1alpha1.ClusterConfig) (c : Cluster)
    (w : World R) :
  v1alpha1.Name req <> "" -> v1alpha1.Type_ req = "STRICT_DNS" ->
  log c = Obj -> Resolver c = Nil ->
  Reconcile (ClusterConf req) c w =
  Done (set_Type c ClusterTypeStrictDNS, w, Some (ErrNoResolver (Name c))).
Proof.
  intros Hn Ht Hl Hr. unfold Reconcile.
  assert (Hv : v1alpha1.Validate req = None) by (apply Validate_ok; auto).
  rewrite Hv, Hl, Ht. simpl. rewrite Hr. reflexivity.
Qed.

End ReconcileTheory.

(* ===================================================================== *)
(** ** The STRICT_DNS case of [Reconcile] *)
(* ===================================================================== *)

Section StrictDnsTheory.

Context {R : Type} {DR : DnsResolver R} {NT : NetText}.

Lemma mem_In (x : string) (l : list string) : util.mem x l = true <-> In x l.
Proof.
  unfold util.mem. rewrite existsb_exists. split.
  - intros [y [Hy He]]. apply String.eqb_eq in He. subst. exact Hy.
  - intros H. exists x. split; [exact H | apply String.eqb_refl].
Qed.

Lemma mem_false (x : string) (l : list string) :
  util.mem x l = false <-> ~ In x l.
Proof.
  rewrite <- mem_In. destruct (util.mem x l); split; congruence.
Qed.


Lemma Diff_added_In (a b : list string) (x : string) :
  In x (snd (util.Diff a b)) <-> In x b /\ ~ In x a.
Proof.
  unfold util.Diff. simpl. rewrite filter_In, negb_true_iff, mem_false.
  reflexivity.
Qed.

(** *** The loop over [deleted] *)

Lemma unregister_all_calls (hs : list string) (w : World R) :
  calls (unregister_all hs w) = calls w ++ map CallUnregister hs.
Proof.
  unfold unregister_all. revert w.
  induction hs as [|h hs IH]; intros w; cbn [fold_left map].
  - symmetry. apply app_nil_r.
  - rewrite IH. cbn [do_Unregister calls]. rewrite <- app_assoc. reflexivity.
Qed.


Lemma reconcile_deleted_eq (hs : list string) (c : Cluster) (w : World R) :
  reconcile_deleted hs c w =
  (set_Domains c (fold_left util.Remove hs (Domains c)), unregister_all hs w).
Proof.
  unfold unregister_all. revert c w.
  induction hs as [|h hs IH]; intros c w; cbn [reconcile_deleted fold_left].
  - destruct c; reflexivity.
  - rewrite IH. reflexivity.
Qed.

Lemma Remove_head_ne (x h : string) (l : list string) :
  x <> h -> util.Remove (x :: l) h = x :: util.Remove l h.
Proof.
  intros Hne. simpl. destruct (String.eqb_spec x h); [contradiction | reflexivity].
Qed.

Lemma fold_Remove_cons (x : string) (hs l : list string) :
  ~ In x hs ->
  fold_left util.Remove hs (x :: l) = x :: fold_left util.Remove hs l.
Proof.
  revert l. induction hs as [|h hs IH]; intros l Hx; [reflexivity|].
  cbn [fold_left]. rewrite Remove_head_ne.
  - apply IH. intros H. apply Hx. right. exact H.
  - intros ->. apply Hx. left. reflexivity.
Qed.

(** Removing, one by one, the entries absent from [b] leaves the entries
    present in [b], in their order. *)
Lemma fold_Remove_filter (a b : list string) :
  fold_left util.Remove (filter (fun x => negb (util.mem x b)) a) a =
  filter (fun x => util.mem x b) a.
Proof.
  induction a as [|x a IH]; [reflexivity|].
  simpl. destruct (util.mem x b) eqn:Hx; simpl.
  - rewrite fold_Remove_cons; [rewrite IH; reflexivity|].
    rewrite filter_In, Hx. intros [_ H]. discriminate.
  - rewrite String.eqb_refl. exact IH.
Qed.

(** *** The loop over [added] *)

Lemma register_outcomes_domains (hs : list string) (r : R) :
  map fst (register_outcomes hs r) = hs.
Proof.
  revert r. induction hs as [|h hs IH]; intros r; simpl; [reflexivity|].
  destruct (Register h r) as [r' err]. simpl. rewrite IH. reflexivity.
Qed.

Lemma reconcile_added_eq (hs : list string) (c : Cluster) (w : World R) :
  reconcile_added hs c w =
  (set_Domains c
     (Domains c ++ map fst (filter snd (register_outcomes hs (resolver w)))),
   mkWorld (register_all hs (resolver w))
     (calls w ++ map call_of_outcome (register_outcomes hs (resolver w)))).
Proof.
  revert c w. induction hs as [|h hs IH]; intros c w;
    cbn [reconcile_added register_outcomes register_all].
  - cbn [filter map]. rewrite !app_nil_r. destruct c, w; reflexivity.
  - unfold do_Register. destruct (Register h (resolver w)) as [r1 err].
    rewrite IH. cbn [fst snd resolver calls filter map].
    destruct (is_nil err); cbn [fst snd map Domains set_Domains Name Type_
                                Endpoints Resolver logger log];
      rewrite <- !app_assoc; reflexivity.
Qed.

(** *** The whole case *)

Lemma Reconcile_strict_dns_eq (req : v1alpha1.ClusterConfig) (c : Cluster)
    (w : World R) :
  v1alpha1.Name req <> "" -> v1alpha1.Type_ req = "STRICT_DNS" ->
  log c = Obj -> Resolver c = Obj ->
  Reconcile (ClusterConf req) c w =
  Done (set_Domains (set_Type c ClusterTypeStrictDNS)
          (reconciled_domains (Domains c) (v1alpha1.Endpoints req) w),
        reconciled_world (Domains c) (v1alpha1.Endpoints req) w,
        None).
Proof.
  intros Hn Ht Hl Hr. unfold Reconcile.
  assert (Hv : v1alpha1.Validate req = None) by (apply Validate_ok; auto).
  rewrite Hv, Hl, Ht, NewClusterType_strict_dns.
  cbn [deref bind fst set_Type Type_ Resolver Domains]. rewrite Hr.
  unfold reconciled_domains, reconciled_world, outcomes, kept, util.Diff.
  cbn [fst snd].
  rewrite reconcile_deleted_eq, reconcile_added_eq.
  cbn [set_Domains set_Type Domains Name Type_ Endpoints Resolver logger log].
  rewrite fold_Remove_filter, unregister_all_calls, <- app_assoc. reflexivity.
Qed.

Lemma kept_In (D Rq : list string) (d : string) :
  In d (kept D Rq) <-> In d D /\ In d Rq.
Proof. unfold kept. rewrite filter_In, mem_In. reflexivity. Qed.

Lemma outcomes_domains (D Rq : list string) (w : World R) :
  map fst (outcomes D Rq w) = snd (util.Diff D Rq).
Proof. apply register_outcomes_domains. Qed.

Lemma outcome_call_In (outs : list (string * bool)) (d : string) (ok : bool) :
  In (CallRegister d ok) (map call_of_outcome outs) <-> In (d, ok) outs.
Proof.
  rewrite in_map_iff. split.
  - intros [[d' ok'] [He Hin]]. unfold call_of_outcome in He. simpl in He.
    injection He as -> ->. exact Hin.
  - intros Hin. exists (d, ok). split; [reflexivity | exact Hin].
Qed.



Lemma unregister_call_not_register (hs : list string) (d : string) (ok : bool) :
  ~ In (CallRegister d ok) (map CallUnregister hs).
Proof. rewrite in_map_iff. intros [d' [He _]]. discriminate. Qed.

Lemma succeeded_In (outs : list (string * bool)) (d : string) :
  In d (map fst (filter snd outs)) <-> In (d, true) outs.
Proof.
  rewrite in_map_iff. split.
  - intros [[d' ok] [He Hin]]. simpl in He. subst d'.
    apply filter_In in Hin. destruct Hin as [Hin Hok]. simpl in Hok.
    subst ok. exact Hin.
  - intros Hin. exists (d, true). split; [reflexivity|].
    apply filter_In. auto.
Qed.

Lemma outcome_In_added (D Rq : list string) (w : World R) (d : string) (ok : bool) :
  In (d, ok) (outcomes D Rq w) -> In d Rq /\ ~ In d D.
Proof.
  intros Hin. apply Diff_added_In. rewrite <- (outcomes_domains D Rq w).
  apply in_map_iff. exists (d, ok). auto.
Qed.

Lemma added_has_outcome (D Rq : list string) (w : World R) (d : string) :
  In d Rq -> ~ In d D -> exists ok, In (d, ok) (outcomes D Rq w).
Proof.
  intros H1 H2.
  assert (H : In d (map fst (outcomes D Rq w))).
  { rewrite outcomes_domains. apply Diff_added_In. auto. }
  apply in_map_iff in H. destruct H as [[d' ok] [He Hin]]. simpl in He. subst.
  exists ok. exact Hin.
Qed.

End StrictDnsTheory.

(* ===================================================================== *)
(** ** What one [Reconcile] does *)
(* ===================================================================== *)

Section ReconcileCases.

Context {R : Type} {DR : DnsResolver R} {NT : NetText}.

Lemma Reconcile_inv (conf : Config) (c : Cluster) (w : World R)
    (c' : Cluster) (w' : World R) (e : option error) :
  Reconcile conf c w = Done (c', w', e) -> reconcile_case conf c w c' w' e.
Proof.
  intros H.
  destruct conf as [|req|].
  - simpl in H. injection H as <- <- <-. constructor. left.
    split; [intros req; discriminate | reflexivity].
  - destruct (v1alpha1.Validate req) as [err|] eqn:Hv.
    + rewrite (Reconcile_invalid req c w err Hv) in H. injection H as <- <- <-.
      constructor. right. exists req. auto.
    + apply Validate_ok in Hv. destruct Hv as [Hn Ht].
      destruct (log c) eqn:Hl.
      { unfold Reconcile in H.
        rewrite (proj2 (Validate_ok req) (conj Hn Ht)), Hl in H.
        discriminate. }
      destruct Ht as [Ht|Ht].
      * rewrite (Reconcile_static_eq req c w Hn Ht Hl) in H.
        injection H as <- <- <-. eapply rc_static; eauto.
      * destruct (Resolver c) eqn:Hr.
        -- rewrite (Reconcile_no_resolver req c w Hn Ht Hl Hr) in H.
           injection H as <- <- <-. eapply rc_no_resolver; eauto.
        -- rewrite (Reconcile_strict_dns_eq req c w Hn Ht Hl Hr) in H.
           injection H as <- <- <-.
           eapply rc_strict_dns; eauto.
  - simpl in H. injection H as <- <- <-. constructor. left.
    split; [intros req; discriminate | reflexivity].
Qed.

(** [Reconcile] returns whenever the cluster has its logger. *)
Lemma Reconcile_returns (conf : Config) (c : Cluster) (w : World R) :
  log c = Obj -> exists c' w' e, Reconcile conf c w = Done (c', w', e).
Proof.
  intros Hl. destruct conf as [|req|]; [simpl; eauto | | simpl; eauto].
  destruct (v1alpha1.Validate req) as [err|] eqn:Hv.
  - rewrite (Reconcile_invalid req c w err Hv). eauto.
  - apply Validate_ok in Hv. destruct Hv as [Hn [Ht|Ht]].
    + rewrite (Reconcile_static_eq req c w Hn Ht Hl). eauto.
    + destruct (Resolver c) eqn:Hr.
      * rewrite (Reconcile_no_resolver req c w Hn Ht Hl Hr). eauto.
      * rewrite (Reconcile_strict_dns_eq req c w Hn Ht Hl Hr). eauto.
Qed.


(** C8 (as amended). [Reconcile] returns an error in exactly three
    situations, all of them structural: the configuration is not a
    cluster configuration ([ErrInvalidConf]); validation rejects it (an
    empty name or an unrecognized type literal); or it asks for
    STRICT_DNS on a cluster that has no resolver.  In every other case
    in which it returns it returns nil, and it does return whenever the
    configuration is valid, the logger is in place and the type is
    STATIC or the resolver is in place: no literal that fails to parse
    and no registration that fails produces an error. *)
Theorem Reconcile_error_causes (conf : Config) (c : Cluster) (w : World R) :
  (forall c' w' e,
     Reconcile conf c w = Done (c', w', Some e) ->
     ((forall req, conf <> ClusterConf req) /\ e = ErrInvalidConf)
     \/ (exists req, conf = ClusterConf req /\
           (v1alpha1.Name req = "" /\ e = ErrMissingName
            \/ v1alpha1.Name req <> "" /\ v1alpha1.Type_ req <> "STATIC" /\
               v1alpha1.Type_ req <> "STRICT_DNS" /\
               e = ErrUnknownClusterType (v1alpha1.Type_ req)))
     \/ (exists req, conf = ClusterConf req /\ v1alpha1.Name req <> "" /\
           v1alpha1.Type_ req = "STRICT_DNS" /\ Resolver c = Nil /\
           e = ErrNoResolver (Name c)))
  /\ ((forall req, conf <> ClusterConf req) ->
      Reconcile conf c w = Done (c, w, Some ErrInvalidConf))
  /\ (forall req e, conf = ClusterConf req -> v1alpha1.Validate req = Some e ->
      Reconcile conf c w = Done (c, w, Some e))
  /\ (forall req, conf = ClusterConf req -> v1alpha1.Name req <> "" ->
      v1alpha1.Type_ req = "STRICT_DNS" -> log c = Obj -> Resolver c = Nil ->
      exists c', Reconcile conf c w = Done (c', w, Some (ErrNoResolver (Name c))))
  /\ (forall req, conf = ClusterConf req -> v1alpha1.Name req <> "" ->
      log c = Obj ->
      (v1alpha1.Type_ req = "STATIC"
       \/ v1alpha1.Type_ req = "STRICT_DNS" /\ Resolver c = Obj) ->
      exists c' w', Reconcile conf c w = Done (c', w', None)).
Proof.
  repeat match goal with |- _ /\ _ => split end.
  - intros c' w' e H. apply Reconcile_inv in H.
    inversion H as [e0 Hc | | req Hconf Hn Ht Hl Hr | ]; subst.
    + destruct Hc as [[Hc He] | [req [Hc Hv]]].
      * left. auto.
      * right. left. exists req. split; [exact Hc|].
        apply Validate_error. exact Hv.
    + right. right. exists req. auto.
  - apply Reconcile_not_cluster_conf.
  - intros req e -> Hv. apply Reconcile_invalid. exact Hv.
  - intros req -> Hn Ht Hl Hr. eexists.
    apply Reconcile_no_resolver; assumption.
  - intros req -> Hn Hl [Ht | [Ht Hr]].
    + eexists _, _. apply Reconcile_static_eq; assumption.
    + eexists _, _. apply Reconcile_strict_dns_eq; assumption.
Qed.

End ReconcileCases.

(* ===================================================================== *)
(** ** Reconciling twice *)
(* ===================================================================== *)

Section ReconcileAgain.

Context {R : Type} {DR : DnsResolver R} {NT : NetText}.

Lemma filter_none {A : Type} (f : A -> bool) (l : list A) :
  (forall x, In x l -> f x = false) -> filter f l = [].
Proof.
  induction l as [|x l IH]; intros H; [reflexivity|].
  simpl. rewrite (H x (or_introl eq_refl)). apply IH.
  intros y Hy. apply H. right. exact Hy.
Qed.

Lemma filter_every {A : Type} (f : A -> bool) (l : list A) :
  (forall x, In x l -> f x = true) -> filter f l = l.
Proof.
  induction l as [|x l IH]; intros H; [reflexivity|].
  simpl. rewrite (H x (or_introl eq_refl)). f_equal. apply IH.
  intros y Hy. apply H. right. exact Hy.
Qed.

Lemma calls_since_app (w : World R) (r : R) (ks : list Call) :
  calls_since w (mkWorld r (calls w ++ ks)) = ks.
Proof.
  unfold calls_since. cbn [calls]. rewrite skipn_app, skipn_all, Nat.sub_diag.
  reflexivity.
Qed.


Lemma calls_since_reconciled (D Rq : list string) (w : World R) :
  calls_since w (reconciled_world D Rq w) =
  map CallUnregister (fst (util.Diff D Rq)) ++ map call_of_outcome (outcomes D Rq w).
Proof. unfold reconciled_world. apply calls_since_app. Qed.

Lemma reconciled_domains_In (D Rq : list string) (w : World R) (d : string) :
  In d (reconciled_domains D Rq w) <->
  (In d D /\ In d Rq) \/ In (d, true) (outcomes D Rq w).
Proof.
  unfold reconciled_domains. rewrite in_app_iff, kept_In, succeeded_In.
  reflexivity.
Qed.

Lemma reconciled_domains_requested (D Rq : list string) (w : World R) (d : string) :
  In d (reconciled_domains D Rq w) -> In d Rq.
Proof.
  rewrite reconciled_domains_In. intros [[_ H] | H]; [exact H|].
  exact (proj1 (outcome_In_added D Rq w d true H)).
Qed.



Lemma failed_call_In (D Rq : list string) (w : World R) (d : string) :
  In (d, false) (outcomes D Rq w) ->
  In (CallRegister d false) (calls_since w (reconciled_world D Rq w)).
Proof.
  intros H. rewrite calls_since_reconciled. apply in_or_app. right.
  apply outcome_call_In. exact H.
Qed.

Lemma failed_call_inv (D Rq : list string) (w : World R) (d : string) :
  In (CallRegister d false) (calls_since w (reconciled_world D Rq w)) ->
  In (d, false) (outcomes D Rq w).
Proof.
  rewrite calls_since_reconciled, in_app_iff. intros [H|H].
  - exfalso. exact (unregister_call_not_register _ _ _ H).
  - apply outcome_call_In. exact H.
Qed.


End ReconcileAgain.

(* ===================================================================== *)
(** ** Registrations held by a cluster *)
(* ===================================================================== *)

Section Registrations.

Context {R : Type} {DR : DnsResolver R} {NT : NetText}.

Lemma Remove_discharge (l : list string) (h : string) :
  util.Remove l h = discharge h l.
Proof.
  induction l as [|x l IH]; [reflexivity|].
  simpl. rewrite IH. reflexivity.
Qed.

Lemma Permutation_discharge (h : string) (l1 l2 : list string) :
  Permutation l1 l2 -> Permutation (discharge h l1) (discharge h l2).
Proof.
  induction 1 as [| x l l' Hp IH | x y l | l l' l'' Hp1 IH1 Hp2 IH2].
  - constructor.
  - simpl. destruct (String.eqb x h); [exact Hp | constructor; exact IH].
  - simpl. destruct (String.eqb_spec y h) as [Hy|Hy];
      destruct (String.eqb_spec x h) as [Hx|Hx]; subst.
    + apply Permutation_refl.
    + apply Permutation_refl.
    + apply Permutation_refl.
    + apply perm_swap.
  - eapply Permutation_trans; eassumption.
Qed.

Lemma registered_app (ks1 ks2 : list Call) :
  registered (ks1 ++ ks2) = fold_left record_call ks2 (registered ks1).
Proof. unfold registered. apply fold_left_app. Qed.

Lemma record_unregisters (hs reg : list string) :
  fold_left record_call (map CallUnregister hs) reg =
  fold_left (fun reg h => discharge h reg) hs reg.
Proof.
  revert reg. induction hs as [|h hs IH]; intros reg; [reflexivity|].
  simpl. apply IH.
Qed.


Lemma Permutation_fold_discharge (hs D reg : list string) :
  Permutation D reg ->
  Permutation (fold_left util.Remove hs D)
              (fold_left (fun reg h => discharge h reg) hs reg).
Proof.
  revert D reg. induction hs as [|h hs IH]; intros D reg Hp; [exact Hp|].
  simpl. apply IH. rewrite Remove_discharge.
  apply Permutation_discharge. exact Hp.
Qed.

Lemma fold_Remove_self (D : list string) : fold_left util.Remove D D = [].
Proof.
  pose proof (fold_Remove_filter D []) as H.
  rewrite (filter_every (fun x => negb (util.mem x [])) D) in H
    by (intros; reflexivity).
  rewrite H. apply filter_none. intros; reflexivity.
Qed.

(** Unregistering every domain that is held gives up every registration. *)
Lemma discharge_all (D reg : list string) :
  Permutation D reg ->
  fold_left (fun reg h => discharge h reg) D reg = [].
Proof.
  intros Hp. apply Permutation_nil.
  rewrite <- (fold_Remove_self D).
  apply Permutation_fold_discharge. exact Hp.
Qed.


(** *** [Reconcile] keeps the books *)


Lemma Reconcile_keeps_operating (conf : Config) (c : Cluster) (w : World R)
    (c' : Cluster) (w' : World R) (e : option error) :
  Reconcile conf c w = Done (c', w', e) -> operating c -> operating c'.
Proof.
  intros H [Hl Hd]. apply Reconcile_inv in H.
  inversion H; subst; split; cbn [log Resolver Domains set_Domains set_Type
                                   set_Endpoints]; auto.
  congruence.
Qed.



(** *** [NewCluster] *)

Lemma NewCluster_inv (conf : Config) (res lg : iface) (w0 : World R)
    (c : Cluster) (w : World R) :
  NewCluster conf res lg w0 = Done (inl c, w) ->
  exists req,
    conf = ClusterConf req /\ v1alpha1.Validate req = None /\ lg = Obj
    /\ Reconcile (ClusterConf req)
         (mkCluster (v1alpha1.Name req) ClusterTypeUnknown [] [] res lg Obj) w0
       = Done (c, w, None).
Proof.
  intros H. destruct conf as [|req|]; try discriminate.
  exists req. unfold NewCluster in H.
  destruct (v1alpha1.Validate req) as [err|] eqn:Hv; [discriminate|].
  destruct lg; [discriminate|]. cbn [deref bind] in H.
  destruct (Reconcile (ClusterConf req)
              (mkCluster (v1alpha1.Name req) ClusterTypeUnknown [] [] res Obj Obj) w0)
    as [[[c1 w1] e1]|] eqn:Hrec; [|discriminate].
  cbn [bind] in H.
  pose proof (Reconcile_inv _ _ _ _ _ _ Hrec) as Hc.
  inversion Hc as [e Hrej | | req' Hconf Hn Ht Hl Hr | ]; subst.
  - destruct Hrej as [[Hno _] | [req' [Heq Hv']]].
    + exfalso. apply (Hno req). reflexivity.
    + injection Heq as <-. congruence.
  - injection H as <- <-. auto.
  - cbn in H. discriminate.
  - injection H as <- <-. auto.
Qed.



(** *** [Close] *)





End Registrations.

(* ===================================================================== *)
(** ** [Close], the registration invariant and [GetConfig] *)
(* ===================================================================== *)

Section Lifecycle.

Context {R : Type} {DR : DnsResolver R} {NT : NetText}.




(** *** [GetConfig] *)



End Lifecycle.

(* ===================================================================== *)
(** ** [Reconcile] observed from the data path *)
(* ===================================================================== *)

Section Interleaving.

Context {R : Type} {DR : DnsResolver R} {NT : NetText}.

Lemma last_cons_default {A : Type} (x : A) (l : list A) (d : A) :
  last (x :: l) d = last l x.
Proof.
  revert x d. induction l as [|y l IH]; intros x d; [reflexivity|].
  change (last (x :: y :: l) d) with (last (y :: l) d).
  rewrite (IH y d), (IH y x). reflexivity.
Qed.

Lemma last_app_default {A : Type} (l1 l2 : list A) (d : A) :
  last (l1 ++ l2) d = last l2 (last l1 d).
Proof.
  revert d. induction l1 as [|x l1 IH]; intros d; [reflexivity|].
  rewrite <- app_comm_cons, !last_cons_default. apply IH.
Qed.

Lemma last_map_default {A B : Type} (f : A -> B) (l : list A) (d : A) :
  last (map f l) (f d) = f (last l d).
Proof.
  induction l as [|x l IH]; [reflexivity|].
  destruct l as [|y l]; [reflexivity|]. exact IH.
Qed.

Lemma endpoints_snapshots_last (es : list string) (eps : list net.IPNet) :
  last (endpoints_snapshots es eps) eps = reconcile_endpoints es eps.
Proof.
  revert eps. induction es as [|e es IH]; intros eps; [reflexivity|].
  cbn [endpoints_snapshots reconcile_endpoints].
  rewrite last_cons_default. apply IH.
Qed.

Lemma endpoints_snapshots_prefix (es : list string) (eps snap : list net.IPNet) :
  In snap (endpoints_snapshots es eps) ->
  exists rest, reconcile_endpoints es eps = snap ++ rest.
Proof.
  revert eps. induction es as [|e es IH]; intros eps H; [destruct H|].
  cbn [endpoints_snapshots reconcile_endpoints] in *.
  destruct H as [<- | H].
  - exists (parsed_subnets es). apply reconcile_endpoints_chain.
  - apply IH. exact H.
Qed.

Lemma deleted_snapshots_last (hs : list string) (c : Cluster) (w : World R) :
  last (deleted_snapshots hs c w) (c, w) = reconcile_deleted hs c w.
Proof.
  revert c w. induction hs as [|h hs IH]; intros c w; [reflexivity|].
  cbn [deleted_snapshots reconcile_deleted].
  rewrite !last_cons_default. apply IH.
Qed.

Lemma added_snapshots_last (hs : list string) (c : Cluster) (w : World R) :
  last (added_snapshots hs c w) (c, w) = reconcile_added hs c w.
Proof.
  revert c w. induction hs as [|h hs IH]; intros c w; [reflexivity|].
  cbn [added_snapshots reconcile_added].
  destruct (do_Register h w) as [w1 err].
  rewrite !last_cons_default. apply IH.
Qed.

(** The statement-by-statement account ends in the state that
    [Reconcile] returns. *)
Lemma observable_last (conf : Config) (c : Cluster) (w : World R)
    (c' : Cluster) (w' : World R) (e : option error) :
  Reconcile conf c w = Done (c', w', e) ->
  last (observable conf c w) (c, w) = (c', w').
Proof.
  unfold observable. rewrite last_cons_default.
  unfold Reconcile, Reconcile_snapshots.
  destruct conf as [|req|];
    try (intros H; injection H as <- <- <-; reflexivity).
  destruct (v1alpha1.Validate req);
    [intros H; injection H as <- <- <-; reflexivity|].
  destruct (log c); [discriminate|]. cbn [deref bind].
  set (c1 := set_Type c (fst (v1alpha1.NewClusterType (v1alpha1.Type_ req)))).
  rewrite last_cons_default.
  destruct (Type_ c1) eqn:Ht.
  - intros H; injection H as <- <- <-.
    rewrite last_cons_default.
    rewrite (last_map_default (fun eps => (set_Endpoints (set_Endpoints c1 []) eps, w))
               _ (Endpoints (set_Endpoints c1 []))).
    rewrite endpoints_snapshots_last. reflexivity.
  - destruct (Resolver c1); [intros H; injection H as <- <- <-; reflexivity|].
    destruct (util.Diff (Domains c1) (v1alpha1.Endpoints req)) as [deleted added].
    cbv beta iota.
    pose proof (deleted_snapshots_last deleted c1 w) as Hd.
    destruct (reconcile_deleted deleted c1 w) as [c2 w2].
    cbv beta iota.
    pose proof (added_snapshots_last added c2 w2) as Ha.
    destruct (reconcile_added added c2 w2) as [c3 w3].
    rewrite last_app_default, Hd, Ha.
    intros H; injection H as <- <- <-. reflexivity.
  - intros H; injection H as <- <- <-. reflexivity.
Qed.

(** C10 (as amended).  [Reconcile] rewrites the cluster in place, one
    statement after the other.  A [Route] that runs before the first
    statement finds the old generation and one that runs after the last
    finds the new one.  In between, during a STATIC reconcile, the type
    is already STATIC, the domains and the world are untouched, and
    [Endpoints] is either still the old list or a prefix of the new
    list, which is emptied first and refilled entry by entry. *)
Theorem Reconcile_observable_states (conf : Config) (c : Cluster) (w : World R)
    (c' : Cluster) (w' : World R) (e : option error) :
  Reconcile conf c w = Done (c', w', e) ->
  hd (c, w) (observable conf c w) = (c, w)
  /\ last (observable conf c w) (c, w) = (c', w')
  /\ (forall req, conf = ClusterConf req -> v1alpha1.Type_ req = "STATIC" ->
      forall s, In s (Reconcile_snapshots conf c w) ->
        snd s = w /\ Domains (fst s) = Domains c
        /\ Type_ (fst s) = ClusterTypeStatic
        /\ (Endpoints (fst s) = Endpoints c
            \/ exists rest, Endpoints c' = Endpoints (fst s) ++ rest)).
Proof.
  intros H. split; [reflexivity|]. split; [exact (observable_last _ _ _ _ _ _ H)|].
  intros req -> Ht s Hs.
  pose proof (Reconcile_inv _ _ _ _ _ _ H) as Hc.
  inversion Hc as [e0 Hrej | req' Hconf Hn Ht' Hl | req' Hconf Hn Ht' Hl Hr
                   | req' Hconf Hn Ht' Hl Hr]; subst.
  - destruct Hrej as [[Hno _] | [req' [Heq Hv]]].
    + exfalso. apply (Hno req). reflexivity.
    + injection Heq as <-. unfold Reconcile_snapshots in Hs.
      rewrite Hv in Hs. destruct Hs.
  - injection Hconf as <-. unfold Reconcile_snapshots in Hs.
    rewrite (proj2 (Validate_ok req) (conj Hn (or_introl Ht))), Hl, Ht in Hs.
    cbn [fst v1alpha1.NewClusterType String.eqb Ascii.eqb Bool.eqb
         set_Type Type_] in Hs.
    destruct Hs as [<- | [<- | Hs]].
    + cbn. auto.
    + cbn. repeat split; auto. right. eexists. reflexivity.
    + apply in_map_iff in Hs. destruct Hs as [eps [<- Heps]].
      cbn. repeat split; auto. right.
      apply endpoints_snapshots_prefix in Heps. destruct Heps as [rest Hrest].
      exists rest. rewrite <- Hrest.
      symmetry. apply (reconcile_endpoints_chain (v1alpha1.Endpoints req) []).
  - injection Hconf as <-. rewrite Ht in Ht'. discriminate.
  - injection Hconf as <-. rewrite Ht in Ht'. discriminate.
Qed.

End Interleaving.

(* ===================================================================== *)
(** ** Further properties of the cluster *)
(* ===================================================================== *)

Section ClusterFurther.

Context {R : Type} {DR : DnsResolver R} {NT : NetText}.

Lemma existsb_set_equal {A : Type} (f : A -> bool) (l1 l2 : list A) :
  set_equal l1 l2 -> existsb f l1 = existsb f l2.
Proof.
  intros H. apply eq_true_iff_eq. rewrite !existsb_exists.
  split; intros [x [Hx Hf]]; exists x; split; try exact Hf; apply H; exact Hx.
Qed.

Lemma route_endpoints_existsb (eps : list net.IPNet) (peer : net.IP) :
  route_endpoints eps peer = existsb (fun e => net.Contains e peer) eps.
Proof.
  induction eps as [|e eps IH]; [reflexivity|].
  simpl. destruct (net.Contains e peer); [reflexivity | exact IH].
Qed.

Lemma route_domains_operating (c : Cluster) (r : R) (peer : net.IP) :
  (Resolver c = Nil -> Domains c = []) ->
  route_domains (Resolver c) (Domains c) r peer =
  Done (existsb (fun d => route_addresses (fst (Lookup d r)) peer) (Domains c)).
Proof.
  intros H. destruct (Resolver c).
  - rewrite (H eq_refl). reflexivity.
  - apply route_domains_Obj.
Qed.

(** X1. [NewCluster] returns a cluster exactly for a valid cluster
    configuration, with a logger factory, that asks for STATIC or comes
    with a resolver; the cluster then carries the name of the
    configuration, the resolver and the logger given, and the type asked
    for.  When it returns an error it returns no cluster and has made no
    call on the resolver; it panics exactly on a valid configuration
    without a logger factory. *)
Theorem NewCluster_outcome (conf : Config) (res lg : iface) (w : World R) :
  (forall c w',
     NewCluster conf res lg w = Done (inl c, w') ->
     exists req,
       conf = ClusterConf req /\ v1alpha1.Validate req = None /\ lg = Obj
       /\ Name c = v1alpha1.Name req /\ Resolver c = res /\ logger c = lg
       /\ log c = Obj
       /\ Type_ c = fst (v1alpha1.NewClusterType (v1alpha1.Type_ req))
       /\ (v1alpha1.Type_ req = "STRICT_DNS" -> res = Obj))
  /\ (forall e w',
        NewCluster conf res lg w = Done (inr e, w') ->
        w' = w
        /\ (((forall req, conf <> ClusterConf req) /\ e = ErrInvalidConf)
            \/ exists req,
                 conf = ClusterConf req /\
                 (v1alpha1.Validate req = Some e
                  \/ (v1alpha1.Validate req = None /\ lg = Obj /\
                      v1alpha1.Type_ req = "STRICT_DNS" /\ res = Nil /\
                      e = ErrNoResolver (v1alpha1.Name req)))))
  /\ (forall req,
        conf = ClusterConf req -> v1alpha1.Validate req = None -> lg = Obj ->
        (v1alpha1.Type_ req = "STATIC" \/ res = Obj) ->
        exists c w', NewCluster conf res lg w = Done (inl c, w'))
  /\ (NewCluster conf res lg w = Panic <->
      exists req, conf = ClusterConf req /\ v1alpha1.Validate req = None /\ lg = Nil).
Proof.
  assert (Hrun : forall req, v1alpha1.Validate req = None ->
            NewCluster (ClusterConf req) res Obj w =
            ('(c, w, err) <-
               Reconcile (ClusterConf req)
                 (mkCluster (v1alpha1.Name req) ClusterTypeUnknown [] [] res Obj Obj) w ;;
             match err with
             | Some e => if error_eqb e ErrRestartRequired then Done (inl c, w)
                         else Done (inr e, w)
             | None => Done (inl c, w)
             end)).
  { intros req Hv. unfold NewCluster. rewrite Hv. reflexivity. }
  split; [|split; [|split]].
  - intros c w' H. pose proof (NewCluster_inv conf res lg w c w' H) as Hi.
    destruct Hi as [req [-> [Hv [-> Hrec]]]]. exists req.
    split; [reflexivity|]. split; [exact Hv|]. split; [reflexivity|].
    apply Reconcile_inv in Hrec.
    inversion Hrec as [| req' Hconf Hn Ht Hl | | req' Hconf Hn Ht Hl Hr];
      subst; injection Hconf as <-; cbn; rewrite Ht.
    + repeat split; try reflexivity. intros Hd. discriminate Hd.
    + cbn in Hr. repeat split; try reflexivity; auto.
  - intros e w' H. destruct conf as [|req|].
    + cbn in H. injection H as <- <-. split; [reflexivity|]. left.
      split; [intros req; discriminate | reflexivity].
    + destruct (v1alpha1.Validate req) as [err|] eqn:Hv.
      * unfold NewCluster in H. rewrite Hv in H. injection H as <- <-.
        split; [reflexivity|]. right. exists req. auto.
      * destruct lg; [unfold NewCluster in H; rewrite Hv in H; discriminate H|].
        rewrite (Hrun req Hv) in H.
        destruct (Reconcile (ClusterConf req) _ w) as [[[c1 w1] e1]|] eqn:Hrec;
          [|discriminate H].
        cbn [bind] in H. apply Reconcile_inv in Hrec.
        inversion Hrec as [e0 Hrej | | req' Hconf Hn Ht Hl Hr | ]; subst.
        -- destruct Hrej as [[Hno _] | [req' [Heq Hv']]].
           ++ exfalso. apply (Hno req). reflexivity.
           ++ injection Heq as <-. congruence.
        -- injection H as H _. discriminate H.
        -- injection Hconf as <-. cbn in H. injection H as <- <-.
           split; [reflexivity|]. right. exists req. split; [reflexivity|].
           right. cbn in Hr. auto.
        -- injection H as H _. discriminate H.
    + cbn in H. injection H as <- <-. split; [reflexivity|]. left.
      split; [intros req; discriminate | reflexivity].
  - intros req -> Hv -> Ht. rewrite (Hrun req Hv).
    apply Validate_ok in Hv. destruct Hv as [Hn Hty].
    destruct Hty as [Hs | Hd].
    + rewrite (Reconcile_static_eq req
                 (mkCluster (v1alpha1.Name req) ClusterTypeUnknown [] [] res Obj Obj)
                 w Hn Hs eq_refl).
      cbn. eauto.
    + destruct Ht as [Hs | ->]; [rewrite Hs in Hd; discriminate Hd|].
      rewrite (Reconcile_strict_dns_eq req
                 (mkCluster (v1alpha1.Name req) ClusterTypeUnknown [] [] Obj Obj Obj)
                 w Hn Hd eq_refl eq_refl).
      cbn. eauto.
  - split.
    + intros H. destruct conf as [|req|]; try discriminate H.
      exists req. split; [reflexivity|].
      destruct (v1alpha1.Validate req) as [err|] eqn:Hv;
        [unfold NewCluster in H; rewrite Hv in H; discriminate H|].
      split; [reflexivity|]. destruct lg; [reflexivity|].
      exfalso. rewrite (Hrun req Hv) in H.
      destruct (Reconcile_returns (ClusterConf req)
                  (mkCluster (v1alpha1.Name req) ClusterTypeUnknown [] [] res Obj Obj)
                  w eq_refl) as [c1 [w1 [e1 Hrec]]].
      rewrite Hrec in H. cbn [bind] in H.
      destruct e1 as [e1|]; [destruct (error_eqb e1 ErrRestartRequired)|];
        discriminate H.
    + intros [req [-> [Hv ->]]]. unfold NewCluster. rewrite Hv. reflexivity.
Qed.

(** X2. The identity of a cluster is fixed when it is made: [Reconcile],
    whatever it returns and whatever name the configuration carries,
    leaves the name, the resolver and the loggers of the cluster as they
    are, so [ObjectName] keeps answering the name the cluster was made
    with. *)
Theorem Reconcile_keeps_identity :
  (forall conf c (w : World R) c' w' e,
     Reconcile conf c w = Done (c', w', e) ->
     ObjectName c' = ObjectName c /\ Resolver c' = Resolver c
     /\ logger c' = logger c /\ log c' = log c)
  /\ (forall req res lg (w0 : World R) c w,
        NewCluster (ClusterConf req) res lg w0 = Done (inl c, w) ->
        ObjectName c = v1alpha1.Name req /\ ObjectName c <> "")
  /\ (forall c (w : World R), reachable c w -> ObjectName c <> "").
Proof.
  assert (Hkeep : forall conf c (w : World R) c' w' e,
            Reconcile conf c w = Done (c', w', e) ->
            ObjectName c' = ObjectName c /\ Resolver c' = Resolver c
            /\ logger c' = logger c /\ log c' = log c).
  { intros conf c w c' w' e H. apply Reconcile_inv in H.
    inversion H; subst; repeat split; reflexivity. }
  assert (Hnew : forall req res lg (w0 : World R) c w,
            NewCluster (ClusterConf req) res lg w0 = Done (inl c, w) ->
            ObjectName c = v1alpha1.Name req /\ ObjectName c <> "").
  { intros req res lg w0 c w H. apply NewCluster_inv in H.
    destruct H as [req' [Heq [Hv [_ Hrec]]]]. injection Heq as <-.
    destruct (Hkeep _ _ _ _ _ _ Hrec) as [Hname _]. cbn in Hname.
    split; [exact Hname|]. rewrite Hname.
    exact (proj1 (proj1 (Validate_ok req) Hv)). }
  split; [exact Hkeep|]. split; [exact Hnew|].
  induction 1 as [conf res lg w0 c w H0 Hn | conf c w c' w' e Hreach IH Hrec
                 | c w r' Hreach IH].
  - pose proof (NewCluster_inv conf res lg w0 c w Hn) as [req [-> _]].
    exact (proj2 (Hnew req res lg w0 c w Hn)).
  - rewrite (proj1 (Hkeep _ _ _ _ _ _ Hrec)). exact IH.
  - exact IH.
Qed.

(** X3. A [Reconcile] to STRICT_DNS on a cluster without a resolver
    returns its error after the type has been overwritten: the endpoints
    and the domains are as before, but the cluster (in operation) now
    answers false to [Route] for every peer, whatever its endpoints
    permitted. *)
Theorem Reconcile_no_resolver_denies (req : v1alpha1.ClusterConfig)
    (c : Cluster) (w : World R) :
  v1alpha1.Name req <> "" -> v1alpha1.Type_ req = "STRICT_DNS" ->
  operating c -> Resolver c = Nil ->
  exists c',
    Reconcile (ClusterConf req) c w = Done (c', w, Some (ErrNoResolver (Name c)))
    /\ Type_ c' = ClusterTypeStrictDNS
    /\ Endpoints c' = Endpoints c /\ Domains c' = Domains c
    /\ forall r peer, Route c' r peer = Done false.
Proof.
  intros Hn Ht [Hl Hd] Hr. exists (set_Type c ClusterTypeStrictDNS).
  split; [apply Reconcile_no_resolver; assumption|].
  cbn. repeat split; try reflexivity.
  intros r peer. unfold Route. cbn. rewrite Hl, Hr, (Hd Hr). reflexivity.
Qed.

(** X4. A [Reconcile] of a STRICT_DNS cluster to a list that names
    exactly the domains it holds, in any order and with any repetition,
    calls the resolver for nothing and leaves the cluster and the world
    as they are; so does a [Reconcile] to the endpoints that [GetConfig]
    reports. *)
Theorem Reconcile_same_domains_noop (req : v1alpha1.ClusterConfig)
    (c : Cluster) (w : World R) :
  v1alpha1.Name req <> "" -> v1alpha1.Type_ req = "STRICT_DNS" ->
  log c = Obj -> Resolver c = Obj -> Type_ c = ClusterTypeStrictDNS ->
  (set_equal (v1alpha1.Endpoints req) (Domains c) ->
   Reconcile (ClusterConf req) c w = Done (c, w, None))
  /\ (v1alpha1.Endpoints req = v1alpha1.Endpoints (GetConfig c) ->
      Reconcile (ClusterConf req) c w = Done (c, w, None)).
Proof.
  intros Hn Ht Hl Hr Hc.
  assert (Hnoop : set_equal (v1alpha1.Endpoints req) (Domains c) ->
                  Reconcile (ClusterConf req) c w = Done (c, w, None)).
  { intros Heq. rewrite (Reconcile_strict_dns_eq req c w Hn Ht Hl Hr).
    assert (Hdel : fst (util.Diff (Domains c) (v1alpha1.Endpoints req)) = []).
    { unfold util.Diff. cbn [fst]. apply filter_none. intros x Hx.
      apply negb_false_iff, mem_In, Heq. exact Hx. }
    assert (Hadd : snd (util.Diff (Domains c) (v1alpha1.Endpoints req)) = []).
    { unfold util.Diff. cbn [snd]. apply filter_none. intros x Hx.
      apply negb_false_iff, mem_In, Heq. exact Hx. }
    assert (Hkept : kept (Domains c) (v1alpha1.Endpoints req) = Domains c).
    { unfold kept. apply filter_every. intros x Hx. apply mem_In, Heq. exact Hx. }
    unfold reconciled_domains, reconciled_world, outcomes.
    rewrite Hdel, Hadd, Hkept.
    cbn [register_outcomes filter map register_all unregister_all fold_left].
    rewrite !app_nil_r. destruct c, w. cbn in *. subst. reflexivity. }
  split; [exact Hnoop|].
  intros He. apply Hnoop. rewrite He. unfold GetConfig. rewrite Hc.
  cbn. intros x. reflexivity.
Qed.

(** X5. For a STATIC cluster whose subnets are read back by [ParseCIDR]
    from the text [IPNet.String] prints for them, a [Reconcile] to the
    endpoints that [GetConfig] reports leaves the cluster and the world
    as they are. *)
Theorem Reconcile_GetConfig_static (req : v1alpha1.ClusterConfig)
    (c : Cluster) (w : World R) :
  v1alpha1.Name req <> "" -> v1alpha1.Type_ req = "STATIC" ->
  log c = Obj -> Type_ c = ClusterTypeStatic ->
  v1alpha1.Endpoints req = v1alpha1.Endpoints (GetConfig c) ->
  (forall n, In n (Endpoints c) ->
     exists ip, ParseCIDR (IPNet_String n) = Some (ip, n)) ->
  Reconcile (ClusterConf req) c w = Done (c, w, None).
Proof.
  intros Hn Ht Hl Hc He Hback.
  rewrite (Reconcile_static_eq req c w Hn Ht Hl), He.
  unfold GetConfig. rewrite Hc. cbn [v1alpha1.Endpoints].
  assert (Hp : parsed_subnets (map IPNet_String (Endpoints c)) = Endpoints c).
  { clear He. induction (Endpoints c) as [|n eps IH]; [reflexivity|].
    unfold parsed_subnets. cbn [map flat_map].
    destruct (Hback n (or_introl eq_refl)) as [ip Hip].
    unfold parse_chain at 1. rewrite Hip. cbn [snd app]. f_equal.
    apply IH. intros m Hm. apply Hback. right. exact Hm. }
  rewrite Hp. destruct c. cbn in *. subst. reflexivity.
Qed.

(** X6. A [Reconcile] to an empty endpoint list that returns no error
    leaves a cluster that answers false to [Route] for every peer; for
    STRICT_DNS it has unregistered every entry of [Domains] and
    registered nothing, so that no registration of the cluster is left
    when [Domains] held them. *)
Theorem Reconcile_empty_denies_all (req : v1alpha1.ClusterConfig)
    (c : Cluster) (w : World R) :
  v1alpha1.Name req <> "" -> v1alpha1.Endpoints req = [] -> operating c ->
  (v1alpha1.Type_ req = "STATIC"
   \/ v1alpha1.Type_ req = "STRICT_DNS" /\ Resolver c = Obj) ->
  exists c' w',
    Reconcile (ClusterConf req) c w = Done (c', w', None)
    /\ (forall r peer, Route c' r peer = Done false)
    /\ (v1alpha1.Type_ req = "STATIC" -> Endpoints c' = [] /\ w' = w)
    /\ (v1alpha1.Type_ req = "STRICT_DNS" ->
        Domains c' = []
        /\ calls_since w w' = map CallUnregister (Domains c)
        /\ (Permutation (Domains c) (registered (calls w)) ->
            registered (calls w') = [])).
Proof.
  intros Hn He [Hl Hd] [Ht | [Ht Hr]].
  - eexists _, _. split; [apply (Reconcile_static_eq req c w Hn Ht Hl)|].
    rewrite He. split; [|split].
    + intros r peer. unfold Route. cbn. rewrite Hl. reflexivity.
    + intros _. split; reflexivity.
    + intros Hs. rewrite Ht in Hs. discriminate Hs.
  - eexists _, _. split; [apply (Reconcile_strict_dns_eq req c w Hn Ht Hl Hr)|].
    rewrite He.
    assert (Hdel : fst (util.Diff (Domains c) []) = Domains c).
    { unfold util.Diff. cbn [fst]. apply filter_every. intros; reflexivity. }
    assert (Hkept : kept (Domains c) [] = []).
    { unfold kept. apply filter_none. intros; reflexivity. }
    assert (Hdom : reconciled_domains (Domains c) [] w = []).
    { unfold reconciled_domains, outcomes. rewrite Hkept. reflexivity. }
    rewrite Hdom. split; [|split].
    + intros r peer. unfold Route. cbn. rewrite Hl. reflexivity.
    + intros Hs. rewrite Ht in Hs. discriminate Hs.
    + intros _. split; [reflexivity|].
      rewrite calls_since_reconciled, Hdel. unfold outcomes.
      cbn [util.Diff snd filter register_outcomes map]. rewrite app_nil_r.
      split; [reflexivity|].
      intros Hp. unfold reconciled_world, outcomes. rewrite Hdel.
      cbn [util.Diff snd filter register_outcomes map calls].
      rewrite app_nil_r, registered_app, record_unregisters.
      apply discharge_all. exact Hp.
Qed.

(** X7. The answer of [Route] depends on the active list only as a set:
    two clusters in operation of the same type whose endpoints and
    domains have the same elements, in whatever order and with whatever
    repetition, answer alike for every peer and resolver state. *)
Theorem Route_order_independent (c1 c2 : Cluster) (r : R) (peer : net.IP) :
  operating c1 -> operating c2 -> Type_ c1 = Type_ c2 ->
  set_equal (Endpoints c1) (Endpoints c2) ->
  set_equal (Domains c1) (Domains c2) ->
  Route c1 r peer = Route c2 r peer.
Proof.
  intros [Hl1 Hd1] [Hl2 Hd2] Ht He Hdm. unfold Route.
  rewrite Hl1, Hl2, <- Ht. cbn [deref bind].
  destruct (Type_ c1).
  - rewrite !route_endpoints_existsb. f_equal. apply existsb_set_equal. exact He.
  - rewrite (route_domains_operating c1 r peer Hd1),
            (route_domains_operating c2 r peer Hd2).
    f_equal. apply existsb_set_equal. exact Hdm.
  - reflexivity.
Qed.

(** X8. A cluster without its logger, as the zero value that the factory
    returns for a nil configuration is, panics in [Route], in [Close] and
    in a [Reconcile] of a valid configuration; a [Reconcile] of a
    configuration that is refused returns the error before the logger is
    touched, leaving cluster and world as they are. *)
Theorem no_logger_panics (c : Cluster) (w : World R) :
  log c = Nil ->
  (forall r peer, Route c r peer = Panic)
  /\ Close c w = Panic
  /\ (forall req, v1alpha1.Validate req = None ->
        Reconcile (ClusterConf req) c w = Panic)
  /\ (forall conf,
        (forall req, conf = ClusterConf req -> v1alpha1.Validate req <> None) ->
        exists e, Reconcile conf c w = Done (c, w, Some e))
  /\ (forall f, exists c0,
        Factory_New f NilConfig w = Done (inl c0, w) /\ log c0 = Nil).
Proof.
  intros Hl. split; [|split; [|split; [|split]]].
  - intros r peer. unfold Route. rewrite Hl. reflexivity.
  - unfold Close. rewrite Hl. reflexivity.
  - intros req Hv. unfold Reconcile. rewrite Hv, Hl. reflexivity.
  - intros conf Hbad. destruct conf as [|req|]; try (eexists; reflexivity).
    destruct (v1alpha1.Validate req) as [err|] eqn:Hv.
    + exists err. apply Reconcile_invalid. exact Hv.
    + exfalso. exact (Hbad req eq_refl Hv).
  - intros f. exists zero_Cluster. split; reflexivity.
Qed.

End ClusterFurther.

(* ===================================================================== *)
(** ** Properties of the monitoring backend *)
(* ===================================================================== *)

Section MonitoringTheory.

Import monitoring.

Context {UT : UrlText}.

Lemma serving_state_snoc (evs : list Event) (ev : Event) :
  serving_state (evs ++ [ev]) = step_serving (serving_state evs) ev.
Proof. unfold serving_state. rewrite fold_left_app. reflexivity. Qed.

Lemma NewBackend_events (endpoint : string) (w : World) :
  events (snd (NewBackend endpoint w)) = events w.
Proof.
  unfold NewBackend. destruct (url_Parse endpoint) as [u|]; [|reflexivity].
  destruct (String.eqb (url.Hostname u) ""); reflexivity.
Qed.

(** X9. [NewBackend] always returns a backend that records the endpoint
    given, and launches nothing.  It returns an error exactly when the
    endpoint does not parse; the backend has a server exactly when the
    endpoint parses with a host name, and then the server is a new one,
    its address is the host name, followed by [:port] when there is a
    port, and its mux pattern is the escaped path, or [/metrics] when
    the path is empty, so the pattern is never empty. *)
Theorem NewBackend_cases (endpoint : string) (w : World) :
  exists b err w',
    NewBackend endpoint w = (b, err, w')
    /\ Endpoint b = endpoint
    /\ events w' = events w
    /\ (err = Some (UnableToParse endpoint) <-> url_Parse endpoint = None)
    /\ (err = None <-> url_Parse endpoint <> None)
    /\ (httpServer b = None ->
        w' = w /\ (url_Parse endpoint = None
                   \/ exists u, url_Parse endpoint = Some u /\ url.Hostname u = ""))
    /\ (forall s, httpServer b = Some s ->
        err = None
        /\ server_id s = allocated w /\ allocated w' = S (allocated w)
        /\ Pattern s <> ""
        /\ exists u,
             url_Parse endpoint = Some u /\ url.Hostname u <> ""
             /\ Addr s = (if String.eqb (url.Port u) "" then url.Hostname u
                          else url.Hostname u ++ ":" ++ url.Port u)%string
             /\ Pattern s = (if String.eqb (url.EscapedPath u) "" then "/metrics"
                             else url.EscapedPath u)).
Proof.
  unfold NewBackend. destruct (url_Parse endpoint) as [u|] eqn:Hp.
  - destruct (String.eqb_spec (url.Hostname u) "") as [Hh|Hh].
    + eexists _, _, _. split; [reflexivity|]. cbn.
      split; [reflexivity|]. split; [reflexivity|].
      split; [split; discriminate|]. split; [split; [discriminate | reflexivity]|].
      split; [|intros s Hs; discriminate Hs].
      intros _. split; [reflexivity|]. right. exists u. auto.
    + eexists _, _, _. split; [reflexivity|]. cbn.
      split; [reflexivity|]. split; [reflexivity|].
      split; [split; discriminate|]. split; [split; [discriminate | reflexivity]|].
      split; [discriminate|].
      intros s Hs. injection Hs as <-. cbn.
      split; [reflexivity|]. split; [reflexivity|]. split; [reflexivity|]. split.
      * destruct (String.eqb_spec (url.EscapedPath u) ""); [discriminate | assumption].
      * exists u. split; [reflexivity|]. split; [exact Hh|].
        split; [destruct (String.eqb (url.Port u) ""); reflexivity | reflexivity].
  - eexists _, _, _. split; [reflexivity|]. cbn.
    split; [reflexivity|]. split; [reflexivity|].
    split; [split; reflexivity|]. split; [split; [discriminate | congruence]|].
    split; [intros _; auto|]. intros s Hs. discriminate Hs.
Qed.

(** *** Stopping and starting *)

Lemma Stop_not_serving (b : Backend) (w : World) (s : Server) :
  httpServer b = Some s -> ~ In (server_id s) (serving (Stop b w)).
Proof.
  intros Hs. unfold serving, Stop. rewrite Hs. cbn [events].
  rewrite serving_state_snoc.
  destruct (serving_state (events w)) as [sv cl]. cbn.
  rewrite filter_In, Nat.eqb_refl. intros [_ H]. discriminate H.
Qed.

Lemma Stop_tidy (b : Backend) (w : World) :
  tidy b w ->
  tidy b (Stop b w) /\ (forall i, ~ In i (serving (Stop b w)))
  /\ allocated (Stop b w) = allocated w.
Proof.
  intros [H1 [H2 H3]]. unfold tidy, Stop.
  destruct (httpServer b) as [s|] eqn:Hs.
  - assert (Hnone : forall i,
              ~ In i (serving (mkWorld (allocated w) (events w ++ [Shutdown s])))).
    { intros i Hi. unfold serving in Hi. cbn [events] in Hi.
      rewrite serving_state_snoc in Hi. unfold serving in H1.
      destruct (serving_state (events w)) as [sv cl]. cbn in Hi, H1.
      apply filter_In in Hi. destruct Hi as [Hin Hne].
      destruct (H1 i Hin) as [s' [Heq Hid]]. injection Heq as <-.
      rewrite Hid, Nat.eqb_refl in Hne. discriminate Hne. }
    split; [|split; [exact Hnone | reflexivity]].
    split; [|split].
    + intros i Hi. exfalso. exact (Hnone i Hi).
    + intros s' Heq. cbn. apply H2. exact Heq.
    + intros i Hi. cbn [events allocated] in *. rewrite serving_state_snoc in Hi.
      destruct (serving_state (events w)) as [sv cl]. cbn in Hi, H3.
      destruct Hi as [<- | Hi]; [apply H2; reflexivity | apply H3; exact Hi].
  - split; [|split; [|reflexivity]].
    + split; [|split]; assumption.
    + intros i Hi. destruct (H1 i Hi) as [s [Heq _]]. discriminate Heq.
Qed.

Lemma Start_tidy (b : Backend) (w : World) :
  (forall i, ~ In i (serving w)) ->
  (forall s, httpServer b = Some s -> server_id s < allocated w) ->
  (forall i, In i (snd (serving_state (events w))) -> i < allocated w) ->
  tidy b (Start b w).
Proof.
  intros Hnone H2 H3. unfold tidy, Start.
  destruct (httpServer b) as [s|] eqn:Hs.
  - split; [|split].
    + intros i Hi. unfold serving in Hi, Hnone. cbn [events] in Hi.
      rewrite serving_state_snoc in Hi.
      destruct (serving_state (events w)) as [sv cl]. cbn in Hi, Hnone.
      destruct (existsb (Nat.eqb (server_id s)) cl); cbn in Hi.
      * exfalso. exact (Hnone i Hi).
      * destruct Hi as [<- | Hi]; [exists s; auto | exfalso; exact (Hnone i Hi)].
    + intros s' Heq. cbn. apply H2. exact Heq.
    + intros i Hi. cbn [events allocated] in *. rewrite serving_state_snoc in Hi.
      destruct (serving_state (events w)) as [sv cl]. cbn in Hi, H3.
      destruct (existsb (Nat.eqb (server_id s)) cl); cbn in Hi; apply H3; exact Hi.
  - split; [|split].
    + intros i Hi. exfalso. exact (Hnone i Hi).
    + intros s Heq. discriminate Heq.
    + exact H3.
Qed.

Lemma NewBackend_alloc (endpoint : string) (w : World)
    (b : Backend) (err : option parse_error) (w' : World) :
  NewBackend endpoint w = (b, err, w') ->
  events w' = events w
  /\ (httpServer b = None -> w' = w)
  /\ (forall s, httpServer b = Some s ->
        server_id s = allocated w /\ allocated w' = S (allocated w)).
Proof.
  unfold NewBackend. destruct (url_Parse endpoint) as [u|].
  - destruct (String.eqb (url.Hostname u) ""); intros H; injection H as <- <- <-; cbn.
    + split; [reflexivity|]. split; [reflexivity|]. intros s Hs. discriminate Hs.
    + split; [reflexivity|]. split; [discriminate|].
      intros s Hs. injection Hs as <-. split; reflexivity.
  - intros H; injection H as <- <- <-; cbn.
    split; [reflexivity|]. split; [reflexivity|]. intros s Hs. discriminate Hs.
Qed.

Lemma NewBackend_Start_tidy (endpoint : string) (w : World)
    (b : Backend) (err : option parse_error) (w' : World) :
  (forall i, ~ In i (serving w)) ->
  (forall i, In i (snd (serving_state (events w))) -> i < allocated w) ->
  NewBackend endpoint w = (b, err, w') ->
  tidy b (Start b w').
Proof.
  intros Hnone H3 Hnew.
  destruct (NewBackend_alloc endpoint w b err w' Hnew) as [Hev [Hno Hsome]].
  apply Start_tidy.
  - unfold serving. rewrite Hev. exact Hnone.
  - intros s Hs. destruct (Hsome s Hs) as [Hid Hal]. rewrite Hid, Hal.
    apply Nat.lt_succ_diag_r.
  - rewrite Hev. intros i Hi. specialize (H3 i Hi).
    destruct (httpServer b) as [s|] eqn:Hs.
    + destruct (Hsome s eq_refl) as [_ Hal]. rewrite Hal.
      apply Nat.lt_lt_succ_r. exact H3.
    + rewrite (Hno eq_refl). exact H3.
Qed.

Lemma Reload_unchanged (b : Backend) (lg : iface) (w : World) :
  Endpoint b <> "" -> Reload b (Endpoint b) lg w = Done (b, w).
Proof.
  intros Hne. unfold Reload.
  destruct (String.eqb_spec (Endpoint b) "") as [H|_]; [contradiction|].
  rewrite String.eqb_refl. reflexivity.
Qed.

(** X10. [Reload] with the endpoint the backend already records (and
    not the empty one) does nothing at all: it returns the same backend,
    makes, shuts down and launches no server, needs no logger, and leaves
    serving exactly what was serving, whether or not the server of the
    backend is among it. *)
Theorem Reload_same_endpoint (b : Backend) (endpoint : string) (lg : iface)
    (w : World) :
  endpoint <> "" -> Endpoint b = endpoint ->
  exists w',
    Reload b endpoint lg w = Done (b, w')
    /\ events w' = events w /\ allocated w' = allocated w
    /\ serving w' = serving w.
Proof.
  intros Hne Heq. exists w. unfold Reload.
  destruct (String.eqb_spec endpoint "") as [H|_]; [contradiction|].
  destruct (String.eqb_spec (Endpoint b) endpoint) as [_|H]; [|contradiction].
  repeat split; reflexivity.
Qed.

(** X11. [Reload] with the empty endpoint shuts the server of the
    backend down and returns the backend as it is, still recording the
    old endpoint; a [Reload] with that old endpoint afterwards therefore
    does nothing, and the server stays shut down. *)
Theorem Reload_empty_then_back (b : Backend) (lg lg' : iface) (w : World) :
  exists w',
    Reload b "" lg w = Done (b, w')
    /\ w' = Stop b w
    /\ (forall s, httpServer b = Some s ->
          events w' = events w ++ [Shutdown s]
          /\ ~ In (server_id s) (serving w'))
    /\ (httpServer b = None -> w' = w)
    /\ (Endpoint b <> "" -> Reload b (Endpoint b) lg' w' = Done (b, w')).
Proof.
  exists (Stop b w). split; [reflexivity|]. split; [reflexivity|].
  split; [|split].
  - intros s Hs. split; [unfold Stop; rewrite Hs; reflexivity|].
    apply Stop_not_serving. exact Hs.
  - intros Hs. unfold Stop. rewrite Hs. reflexivity.
  - intros Hne. apply Reload_unchanged. exact Hne.
Qed.


(** X13. [Reload] with another endpoint that does not parse shuts the
    server of the backend down all the same and returns the old backend,
    which still records the old endpoint: nothing is serving any more
    (when the backend was tidy), and a later [Reload] with the old
    endpoint does not bring the server back.  The failure is logged: with
    a nil logger the call panics. *)
Theorem Reload_unparsable (b : Backend) (endpoint : string) (w : World) :
  endpoint <> "" -> Endpoint b <> endpoint -> url_Parse endpoint = None ->
  Reload b endpoint Nil w = Panic
  /\ Reload b endpoint Obj w = Done (b, Stop b w)
  /\ (tidy b w -> forall i, ~ In i (serving (Stop b w)))
  /\ (Endpoint b <> "" ->
      forall lg, Reload b (Endpoint b) lg (Stop b w) = Done (b, Stop b w)).
Proof.
  intros Hne Hdiff Hp.
  assert (Hrun : forall lg, Reload b endpoint lg w =
                            (_ <- deref lg ;; Done (b, Stop b w))).
  { intros lg. unfold Reload.
    destruct (String.eqb_spec endpoint "") as [H|_]; [contradiction|].
    destruct (String.eqb_spec (Endpoint b) endpoint) as [H|_]; [contradiction|].
    cbn [negb]. unfold NewBackend. rewrite Hp. reflexivity. }
  split; [rewrite Hrun; reflexivity|]. split; [rewrite Hrun; reflexivity|].
  split.
  - intros Ht. exact (proj1 (proj2 (Stop_tidy b w Ht))).
  - intros Hb lg. apply Reload_unchanged. exact Hb.
Qed.

(** X14. A backend stays tidy: when no server but the one the backend
    holds is serving, the same is true of the backend that [Reload]
    returns, whatever the endpoint, and of the backend after [Start] and
    [Stop]; a backend made by [NewBackend] and started while nothing is
    serving is tidy. *)
Theorem Reload_keeps_tidy :
  (forall b endpoint lg w b' w',
     tidy b w -> Reload b endpoint lg w = Done (b', w') -> tidy b' w')
  /\ (forall b w, tidy b w -> tidy b (Stop b w) /\ tidy b (Start b w))
  /\ (forall endpoint w b err w',
        (forall i, ~ In i (serving w)) ->
        (forall i, In i (snd (serving_state (events w))) -> i < allocated w) ->
        NewBackend endpoint w = (b, err, w') ->
        tidy b (Start b w')).
Proof.
  split; [|split].
  - intros b endpoint lg w b' w' Ht H. unfold Reload in H.
    destruct (Stop_tidy b w Ht) as [Hstop [Hnone Hal]].
    destruct (String.eqb endpoint "").
    + injection H as <- <-. exact Hstop.
    + destruct (String.eqb (Endpoint b) endpoint); cbn [negb] in H.
      * injection H as <- <-. exact Ht.
      * destruct (NewBackend endpoint (Stop b w)) as [[m err] w1] eqn:Hnew.
        destruct err as [e|].
        -- assert (Hw1 : w1 = Stop b w).
           { unfold NewBackend in Hnew.
             destruct (url_Parse endpoint) as [u0|];
               [destruct (String.eqb (url.Hostname u0) ""); discriminate Hnew|].
             injection Hnew as _ _ <-. reflexivity. }
           subst w1. destruct lg; [discriminate H|]. cbn in H.
           injection H as <- <-. exact Hstop.
        -- injection H as <- <-.
           apply (NewBackend_Start_tidy endpoint (Stop b w) m None w1 Hnone);
             [|exact Hnew].
           exact (proj2 (proj2 Hstop)).
  - intros b w Ht. split; [exact (proj1 (Stop_tidy b w Ht))|].
    destruct Ht as [H1 [H2 H3]]. unfold tidy, Start.
    destruct (httpServer b) as [s|] eqn:Hs; [|split; [|split]; assumption].
    split; [|split].
    + intros i Hi. unfold serving in Hi, H1. cbn [events] in Hi.
      rewrite serving_state_snoc in Hi.
      destruct (serving_state (events w)) as [sv cl]. cbn in Hi, H1.
      destruct (existsb (Nat.eqb (server_id s)) cl); cbn in Hi.
      * apply H1. exact Hi.
      * destruct Hi as [<- | Hi]; [exists s; auto | apply H1; exact Hi].
    + intros s' Heq. cbn. apply H2. exact Heq.
    + intros i Hi. cbn [events allocated] in *. rewrite serving_state_snoc in Hi.
      destruct (serving_state (events w)) as [sv cl]. cbn in Hi, H3.
      destruct (existsb (Nat.eqb (server_id s)) cl); cbn in Hi; apply H3; exact Hi.
  - exact NewBackend_Start_tidy.
Qed.

End MonitoringTheory.

(* ===================================================================== *)
(** ** The cluster end to end *)
(* ===================================================================== *)

Section ClusterEndToEnd.

Context {R : Type} {DR : DnsResolver R} {NT : NetText}.

(** X15. The factory hands its resolver and logger factory to every
    cluster it makes: a cluster made from a configuration that is not nil
    holds the resolver of the factory, is in operation and is among the
    reachable states; for the nil configuration the factory returns the
    zero cluster, without error and without touching the world, whatever
    the factory holds. *)
Theorem Factory_New_outcome (res lg : iface) (conf : Config) (w : World R) :
  (forall c w',
     Factory_New (NewClusterFactory res lg) conf w = Done (inl c, w') ->
     conf <> NilConfig ->
     Resolver c = res /\ operating c /\ (calls w = [] -> reachable c w'))
  /\ (conf <> NilConfig ->
      Factory_New (NewClusterFactory res lg) conf w = NewCluster conf res lg w)
  /\ (conf = NilConfig ->
      Factory_New (NewClusterFactory res lg) conf w = Done (inl zero_Cluster, w)).
Proof.
  assert (Heq : conf <> NilConfig ->
                Factory_New (NewClusterFactory res lg) conf w =
                NewCluster conf res lg w).
  { intros Hn. destruct conf; [contradiction | reflexivity | reflexivity]. }
  split; [|split; [exact Heq | intros ->; reflexivity]].
  intros c w' H Hn. rewrite (Heq Hn) in H. split; [|split].
  - pose proof (NewCluster_inv conf res lg w c w' H) as [req [_ [_ [_ Hrec]]]].
    apply Reconcile_inv in Hrec. inversion Hrec; subst; reflexivity.
  - pose proof (NewCluster_inv conf res lg w c w' H) as [req [_ [_ [_ Hrec]]]].
    apply (Reconcile_keeps_operating _ _ _ _ _ _ Hrec). split; reflexivity.
  - intros H0. eapply reach_new; eassumption.
Qed.

(** X16. After a [Reconcile] of a STATIC configuration, [Route] permits a
    peer exactly when some literal of the configuration yields, through
    the parse chain, a subnet that contains the peer: literals that do
    not parse permit nothing, and nothing of the previous endpoints is
    left to permit anything. *)
Theorem Route_after_static_reconcile (req : v1alpha1.ClusterConfig)
    (c : Cluster) (w : World R) :
  v1alpha1.Name req <> "" -> v1alpha1.Type_ req = "STATIC" -> log c = Obj ->
  exists c',
    Reconcile (ClusterConf req) c w = Done (c', w, None)
    /\ forall r peer,
         exists b,
           Route c' r peer = Done b
           /\ (b = true <->
               exists lit n, In lit (v1alpha1.Endpoints req)
                             /\ parse_chain lit = Some n
                             /\ net.Contains n peer = true).
Proof.
  intros Hn Ht Hl. eexists. split; [apply (Reconcile_static_eq req c w Hn Ht Hl)|].
  intros r peer. eexists. split.
  - unfold Route. cbn. rewrite Hl. reflexivity.
  - rewrite route_endpoints_true. split.
    + intros [n [Hin Hc]]. apply parsed_subnets_In in Hin.
      destruct Hin as [lit [Hlit Hp]]. exists lit, n. auto.
    + intros [lit [n [Hlit [Hp Hc]]]]. exists n. split; [|exact Hc].
      apply parsed_subnets_In. exists lit. auto.
Qed.

(** X17. After a [Reconcile] of a STRICT_DNS configuration, [Route]
    permits a peer only through a requested domain: whatever the cluster
    held before and whatever the resolver answers later, a peer is
    permitted only if the lookup of some domain of the requested list
    returns an address equal to it; and it is permitted whenever that
    domain was already held or all registrations succeeded. *)
Theorem Route_after_strict_dns_reconcile (req : v1alpha1.ClusterConfig)
    (c : Cluster) (w : World R) :
  v1alpha1.Name req <> "" -> v1alpha1.Type_ req = "STRICT_DNS" ->
  log c = Obj -> Resolver c = Obj ->
  exists c' w',
    Reconcile (ClusterConf req) c w = Done (c', w', None)
    /\ forall r peer,
         exists b,
           Route c' r peer = Done b
           /\ (b = true ->
               exists d n, In d (v1alpha1.Endpoints req)
                           /\ In n (fst (Lookup d r))
                           /\ net.Equal n peer = true)
           /\ (forall d n,
                 In d (v1alpha1.Endpoints req) ->
                 In d (Domains c)
                 \/ (forall d', ~ In (CallRegister d' false) (calls_since w w')) ->
                 In n (fst (Lookup d r)) -> net.Equal n peer = true ->
                 b = true).
Proof.
  intros Hn Ht Hl Hr. eexists _, _.
  split; [apply (Reconcile_strict_dns_eq req c w Hn Ht Hl Hr)|].
  intros r peer. eexists. split; [|split].
  - unfold Route. cbn. rewrite Hl, Hr. apply route_domains_Obj.
  - intros Hb. apply existsb_exists in Hb. destruct Hb as [d [Hd Ha]].
    apply route_addresses_true in Ha. destruct Ha as [n [Hin He]].
    exists d, n. split; [|auto].
    exact (reconciled_domains_requested _ _ _ _ Hd).
  - intros d n Hd Hheld Hin He. apply existsb_exists. exists d. split.
    + apply reconciled_domains_In.
      destruct (in_dec string_dec d (Domains c)) as [HD | HnD]; [left; auto|].
      right. destruct Hheld as [HD | Hok]; [contradiction|].
      destruct (added_has_outcome (Domains c) (v1alpha1.Endpoints req) w d Hd HnD)
        as [[|] Hout]; [exact Hout|].
      exfalso. apply (Hok d). apply failed_call_In. exact Hout.
    + apply route_addresses_true. exists n. auto.
Qed.

End ClusterEndToEnd.

(* ===================================================================== *)
(** ** The theorems at work: IPv4 literals and the table-driven resolver *)
(* ===================================================================== *)

Import example.

(** *** The listed test cases *)

Example route_static_inside :
  exists c w,
    NewCluster (static_conf ["10.0.0.0/24"]) Obj Obj (world dns) = Done (inl c, w)
    /\ Route c (resolver w) (addr 10 0 0 5) = Done true
    /\ Route c (resolver w) (addr 10 0 1 5) = Done false.
Proof. eexists _, _. split; [reflexivity|]. split; reflexivity. Qed.

Example route_bare_address :
  exists c w,
    NewCluster (static_conf ["192.168.1.1"]) Obj Obj (world dns) = Done (inl c, w)
    /\ map IPNet_String (Endpoints c) = ["192.168.1.1/32"]
    /\ Route c (resolver w) (addr 192 168 1 1) = Done true
    /\ Route c (resolver w) (addr 192 168 1 2) = Done false.
Proof. eexists _, _. split; [reflexivity|]. repeat split; reflexivity. Qed.

Example reconcile_domains_abc :
  exists c w c' w',
    NewCluster (dns_conf ["a.com"; "b.com"]) Obj Obj (world dns) = Done (inl c, w)
    /\ Reconcile (dns_conf ["b.com"; "c.com"]) c w = Done (c', w', None)
    /\ Domains c' = ["b.com"; "c.com"]
    /\ calls_since w w' = [CallUnregister "a.com"; CallRegister "c.com" true].
Proof.
  eexists _, _, _, _. split; [reflexivity|]. split; [reflexivity|].
  split; reflexivity.
Qed.

(** [GetConfig] of a STRICT_DNS cluster returns the domains in the order
    in which they were added: the conversion to [sort.StringSlice] does
    not sort them. *)
Example GetConfig_strict_dns_insertion_order :
  exists c w c' w',
    NewCluster (dns_conf ["b.com"]) Obj Obj (world dns) = Done (inl c, w)
    /\ Reconcile (dns_conf ["a.com"; "b.com"]) c w = Done (c', w', None)
    /\ v1alpha1.Endpoints (GetConfig c') = ["b.com"; "a.com"]
    /\ sorted_strings (v1alpha1.Endpoints (GetConfig c')) = false.
Proof.
  eexists _, _, _, _. split; [reflexivity|]. split; [reflexivity|].
  split; reflexivity.
Qed.

(** The zero-value cluster of the factory has no logger: [Route],
    [Close] and a [Reconcile] of a valid configuration panic on it. *)
Example zero_cluster_panics :
  Factory_New (NewClusterFactory Obj Obj) NilConfig (world dns)
    = Done (inl zero_Cluster, world dns)
  /\ Route zero_Cluster dns (addr 10 0 0 5) = Panic
  /\ Close zero_Cluster (world dns) = Panic
  /\ Reconcile (static_conf []) zero_Cluster (world dns) = Panic
  /\ Inspect zero_Cluster NilConfig (static_conf []) = false.
Proof. repeat split; reflexivity. Qed.

(** *** C1 *)

Lemma Route_static_membership_witness :
  log (cluster ClusterTypeStatic [subnet 10 0 0 0 24] []) = Obj
  /\ Route (cluster ClusterTypeStatic [subnet 10 0 0 0 24] []) dns (addr 10 0 0 5)
     = Done true
  /\ Route (cluster ClusterTypeStatic [] []) dns (addr 10 0 0 5) = Done false.
Proof.
  split; [reflexivity|]. split.
  - destruct (Route_static_membership
                (cluster ClusterTypeStatic [subnet 10 0 0 0 24] []) dns
                (addr 10 0 0 5) eq_refl) as [Hs _].
    destruct (Hs eq_refl) as [_ Hfirst].
    apply (Hfirst [] (subnet 10 0 0 0 24) []); reflexivity.
  - apply (Route_static_membership (cluster ClusterTypeStatic [] []) dns
             (addr 10 0 0 5) eq_refl); reflexivity.
Defined.

(** *** C2 *)


(** *** C3 *)


(** *** C4 *)


(** *** C5 *)



(** *** C6 *)


(** *** C7 *)


(** A [Reconcile] from STRICT_DNS to STATIC keeps the domain listed and
    registered, and the [Close] of the cluster, now STATIC, does not
    unregister it. *)
Example type_change_keeps_registration :
  Reconcile (static_conf ["10.0.0.0/24"]) (cluster ClusterTypeStrictDNS [] ["a.com"])
    (mkWorld (dns_with ["a.com"]) [CallRegister "a.com" true])
  = Done (cluster ClusterTypeStatic [subnet 10 0 0 0 24] ["a.com"],
          mkWorld (dns_with ["a.com"]) [CallRegister "a.com" true], None)
  /\ Close (cluster ClusterTypeStatic [subnet 10 0 0 0 24] ["a.com"])
            (mkWorld (dns_with ["a.com"]) [CallRegister "a.com" true])
     = Done (mkWorld (dns_with ["a.com"]) [CallRegister "a.com" true], None)
  /\ registered [CallRegister "a.com" true] = ["a.com"].
Proof. repeat split; reflexivity. Qed.


(** *** C8 *)

(** A configuration of another kind of object is refused with
    [ErrInvalidConf], and so is a cluster configuration without a name
    with [ErrMissingName]: neither is one of the two causes named. *)
Lemma Reconcile_refuses_other_config :
  Reconcile OtherConf (cluster ClusterTypeStatic [] []) (world dns)
    = Done (cluster ClusterTypeStatic [] [], world dns, Some ErrInvalidConf)
  /\ ~ named_error_cause OtherConf (cluster ClusterTypeStatic [] []).
Proof.
  split; [reflexivity|]. intros [req [H _]]. discriminate H.
Qed.

Lemma Reconcile_error_causes_witness :
  exists c' w',
    Reconcile (dns_conf ["b.com"; ""])
      (cluster ClusterTypeStrictDNS [] ["a.com"; "b.com"]) world_ab
    = Done (c', w', None)
    /\ In (CallRegister "" false) (calls_since world_ab w').
Proof.
  destruct (Reconcile_error_causes (dns_conf ["b.com"; ""])
              (cluster ClusterTypeStrictDNS [] ["a.com"; "b.com"]) world_ab)
    as [_ [_ [_ [_ Hnil]]]].
  destruct (Hnil (v1alpha1.mkClusterConfig "media" "STRICT_DNS" ["b.com"; ""])
              eq_refl) as [c' [w' Hrec]];
    [discriminate | reflexivity | right; split; reflexivity |].
  exists c', w'. split; [exact Hrec|].
  vm_compute in Hrec. injection Hrec as <- <-.
  right. left. reflexivity.
Defined.

(** *** C9 *)



(** *** C10 *)

(** Both the old and the new list permit [10.0.0.5]; between two
    statements of the reconcile the list holds only the first new subnet,
    and [Route] refuses the peer. *)
Lemma Route_observes_partial_endpoints :
  Reconcile (static_conf ["10.0.1.0/24"; "10.0.0.0/24"])
    (cluster ClusterTypeStatic [subnet 10 0 0 0 24] []) (world dns)
  = Done (cluster ClusterTypeStatic [subnet 10 0 1 0 24; subnet 10 0 0 0 24] [],
          world dns, None)
  /\ In (cluster ClusterTypeStatic [subnet 10 0 1 0 24] [], world dns)
        (observable (static_conf ["10.0.1.0/24"; "10.0.0.0/24"])
           (cluster ClusterTypeStatic [subnet 10 0 0 0 24] []) (world dns))
  /\ generation (cluster ClusterTypeStatic [subnet 10 0 1 0 24] [])
     <> generation (cluster ClusterTypeStatic [subnet 10 0 0 0 24] [])
  /\ generation (cluster ClusterTypeStatic [subnet 10 0 1 0 24] [])
     <> generation (cluster ClusterTypeStatic
                      [subnet 10 0 1 0 24; subnet 10 0 0 0 24] [])
  /\ Route (cluster ClusterTypeStatic [subnet 10 0 0 0 24] []) dns (addr 10 0 0 5)
     = Done true
  /\ Route (cluster ClusterTypeStatic [subnet 10 0 1 0 24; subnet 10 0 0 0 24] [])
       dns (addr 10 0 0 5)
     = Done true
  /\ Route (cluster ClusterTypeStatic [subnet 10 0 1 0 24] []) dns (addr 10 0 0 5)
     = Done false.
Proof.
  split; [reflexivity|]. split.
  - right. right. right. left. reflexivity.
  - split; [intros H; discriminate H|]. split; [intros H; discriminate H|].
    repeat split; reflexivity.
Qed.

Lemma Reconcile_observable_states_witness :
  exists c' w',
    Reconcile (static_conf ["10.0.1.0/24"; "10.0.0.0/24"])
      (cluster ClusterTypeStatic [subnet 10 0 0 0 24] []) (world dns)
    = Done (c', w', None)
    /\ last (observable (static_conf ["10.0.1.0/24"; "10.0.0.0/24"])
               (cluster ClusterTypeStatic [subnet 10 0 0 0 24] []) (world dns))
            (cluster ClusterTypeStatic [subnet 10 0 0 0 24] [], world dns)
       = (c', w').
Proof.
  eexists _, _. split; [reflexivity|].
  exact (proj1 (proj2 (Reconcile_observable_states
                         (static_conf ["10.0.1.0/24"; "10.0.0.0/24"])
                         (cluster ClusterTypeStatic [subnet 10 0 0 0 24] [])
                         (world dns) _ _ None eq_refl))).
Defined.

(* ===================================================================== *)
(** ** The further properties at work *)
(* ===================================================================== *)

Lemma NewCluster_outcome_witness :
  exists e w',
    NewCluster (dns_conf ["a.com"]) Nil Obj (world dns) = Done (inr e, w')
    /\ e = ErrNoResolver "media" /\ w' = world dns.
Proof.
  eexists _, _. split; [reflexivity|]. split; [reflexivity|].
  destruct (NewCluster_outcome (dns_conf ["a.com"]) Nil Obj (world dns))
    as [_ [Herr _]].
  exact (proj1 (Herr _ _ eq_refl)).
Defined.

Lemma Reconcile_keeps_identity_witness :
  exists c' w',
    Reconcile (ClusterConf (v1alpha1.mkClusterConfig "other" "STATIC" ["10.0.1.0/24"]))
      (cluster ClusterTypeStatic [subnet 10 0 0 0 24] []) (world dns)
    = Done (c', w', None)
    /\ ObjectName c' = "media".
Proof.
  eexists _, _. split; [reflexivity|].
  destruct (@Reconcile_keeps_identity mock.state mock_resolver ipv4_text)
    as [Hkeep _].
  exact (proj1 (Hkeep
                  (ClusterConf (v1alpha1.mkClusterConfig "other" "STATIC"
                                  ["10.0.1.0/24"]))
                  (cluster ClusterTypeStatic [subnet 10 0 0 0 24] [])
                  (world dns) _ _ _ eq_refl)).
Defined.

Lemma Reconcile_no_resolver_denies_witness :
  v1alpha1.Name (v1alpha1.mkClusterConfig "media" "STRICT_DNS" ["a.com"]) <> ""
  /\ operating static_without_resolver
  /\ Resolver static_without_resolver = Nil
  /\ Route static_without_resolver dns (addr 10 0 0 5) = Done true
  /\ exists c',
       Reconcile (dns_conf ["a.com"]) static_without_resolver (world dns)
       = Done (c', world dns, Some (ErrNoResolver "media"))
       /\ Endpoints c' = [subnet 10 0 0 0 24]
       /\ Route c' dns (addr 10 0 0 5) = Done false.
Proof.
  assert (Hop : operating static_without_resolver) by (split; reflexivity).
  split; [discriminate|]. split; [exact Hop|]. split; [reflexivity|].
  split; [reflexivity|].
  destruct (Reconcile_no_resolver_denies
              (v1alpha1.mkClusterConfig "media" "STRICT_DNS" ["a.com"])
              static_without_resolver (world dns))
    as [c' [Hrec [_ [Heps [_ Hroute]]]]];
    [discriminate | reflexivity | exact Hop | reflexivity |].
  exists c'. split; [exact Hrec|]. split; [exact Heps | apply Hroute].
Defined.

Lemma Reconcile_same_domains_noop_witness :
  set_equal ["b.com"; "a.com"; "b.com"]
            (Domains (cluster ClusterTypeStrictDNS [] ["a.com"; "b.com"]))
  /\ Reconcile (dns_conf ["b.com"; "a.com"; "b.com"])
       (cluster ClusterTypeStrictDNS [] ["a.com"; "b.com"]) world_ab
     = Done (cluster ClusterTypeStrictDNS [] ["a.com"; "b.com"], world_ab, None).
Proof.
  assert (Heq : set_equal ["b.com"; "a.com"; "b.com"]
                  (Domains (cluster ClusterTypeStrictDNS [] ["a.com"; "b.com"])))
    by (intros x; simpl; tauto).
  split; [exact Heq|].
  refine (proj1 (Reconcile_same_domains_noop
                   (v1alpha1.mkClusterConfig "media" "STRICT_DNS"
                      ["b.com"; "a.com"; "b.com"])
                   (cluster ClusterTypeStrictDNS [] ["a.com"; "b.com"]) world_ab
                   _ eq_refl eq_refl eq_refl eq_refl) Heq).
  discriminate.
Defined.

Lemma Reconcile_GetConfig_static_witness :
  v1alpha1.Endpoints
    (GetConfig (cluster ClusterTypeStatic
                  [subnet 10 0 0 0 24; subnet 192 168 1 1 32] []))
  = ["10.0.0.0/24"; "192.168.1.1/32"]
  /\ Reconcile (static_conf ["10.0.0.0/24"; "192.168.1.1/32"])
       (cluster ClusterTypeStatic [subnet 10 0 0 0 24; subnet 192 168 1 1 32] [])
       (world dns)
     = Done (cluster ClusterTypeStatic [subnet 10 0 0 0 24; subnet 192 168 1 1 32] [],
             world dns, None).
Proof.
  split; [reflexivity|].
  apply (Reconcile_GetConfig_static
           (v1alpha1.mkClusterConfig "media" "STATIC"
              ["10.0.0.0/24"; "192.168.1.1/32"])
           (cluster ClusterTypeStatic [subnet 10 0 0 0 24; subnet 192 168 1 1 32] [])
           (world dns)); try reflexivity; [discriminate|].
  intros n [<- | [<- | []]]; eexists; reflexivity.
Defined.

Lemma Reconcile_empty_denies_all_witness :
  operating (cluster ClusterTypeStrictDNS [] ["a.com"; "b.com"])
  /\ exists c' w',
       Reconcile (dns_conf []) (cluster ClusterTypeStrictDNS [] ["a.com"; "b.com"])
         world_ab = Done (c', w', None)
       /\ Route c' (resolver w') (addr 10 0 0 1) = Done false
       /\ calls_since world_ab w' = [CallUnregister "a.com"; CallUnregister "b.com"].
Proof.
  assert (Hop : operating (cluster ClusterTypeStrictDNS [] ["a.com"; "b.com"]))
    by (split; [reflexivity | discriminate]).
  split; [exact Hop|].
  destruct (Reconcile_empty_denies_all
              (v1alpha1.mkClusterConfig "media" "STRICT_DNS" [])
              (cluster ClusterTypeStrictDNS [] ["a.com"; "b.com"]) world_ab)
    as [c' [w' [Hrec [Hroute [_ Hdns]]]]];
    [discriminate | reflexivity | exact Hop | right; split; reflexivity |].
  exists c', w'. split; [exact Hrec|]. split; [apply Hroute|].
  exact (proj1 (proj2 (Hdns eq_refl))).
Defined.

Lemma Route_order_independent_witness :
  set_equal [subnet 10 0 0 0 24; subnet 10 0 1 0 24]
            [subnet 10 0 1 0 24; subnet 10 0 0 0 24; subnet 10 0 1 0 24]
  /\ Route (cluster ClusterTypeStatic [subnet 10 0 0 0 24; subnet 10 0 1 0 24] [])
       dns (addr 10 0 1 7)
     = Route (cluster ClusterTypeStatic
                [subnet 10 0 1 0 24; subnet 10 0 0 0 24; subnet 10 0 1 0 24] [])
         dns (addr 10 0 1 7).
Proof.
  assert (Heq : set_equal [subnet 10 0 0 0 24; subnet 10 0 1 0 24]
                  [subnet 10 0 1 0 24; subnet 10 0 0 0 24; subnet 10 0 1 0 24])
    by (intros x; simpl; tauto).
  split; [exact Heq|].
  apply Route_order_independent.
  - split; [reflexivity | discriminate].
  - split; [reflexivity | discriminate].
  - reflexivity.
  - exact Heq.
  - intros x. reflexivity.
Defined.

Lemma no_logger_panics_witness :
  log zero_Cluster = Nil
  /\ Route zero_Cluster dns (addr 10 0 0 5) = Panic
  /\ exists e, Reconcile OtherConf zero_Cluster (world dns)
               = Done (zero_Cluster, world dns, Some e).
Proof.
  split; [reflexivity|].
  destruct (no_logger_panics zero_Cluster (world dns) eq_refl)
    as [Hroute [_ [_ [Hbad _]]]].
  split; [apply Hroute|]. apply Hbad. intros req H. discriminate H.
Defined.

Lemma NewBackend_cases_witness :
  exists b err w',
    monitoring.NewBackend "http://0.0.0.0:8080/metrics" (monitoring.mkWorld 0 [])
      = (b, err, w')
    /\ monitoring.httpServer b
       = Some (monitoring.mkServer 0 "0.0.0.0:8080" "/metrics")
    /\ err = None.
Proof.
  destruct (NewBackend_cases "http://0.0.0.0:8080/metrics"
              (monitoring.mkWorld 0 [])) as [b [err [w' [Heq _]]]].
  exists b, err, w'. split; [exact Heq|].
  vm_compute in Heq. injection Heq as <- <- <-. split; reflexivity.
Defined.

Lemma backend0_tidy : monitoring.tidy backend_example.backend0 backend_example.world0.
Proof.
  split; [|split].
  - intros i [<- | []]. exists backend_example.server0. split; reflexivity.
  - intros s H. injection H as <-. apply Nat.lt_succ_diag_r.
  - intros i [].
Qed.

Lemma Reload_same_endpoint_witness :
  "http://localhost" <> ""
  /\ exists w',
       monitoring.Reload backend_example.backend0 "http://localhost" Nil
         backend_example.world0
       = Done (backend_example.backend0, w')
       /\ monitoring.serving w' = [0].
Proof.
  split; [discriminate|].
  destruct (Reload_same_endpoint backend_example.backend0
              "http://localhost" Nil backend_example.world0)
    as [w' [Hrel [_ [_ Hserv]]]]; [discriminate | reflexivity |].
  exists w'. split; [exact Hrel|]. rewrite Hserv. reflexivity.
Defined.

Lemma Reload_empty_then_back_witness :
  exists w',
    monitoring.Reload backend_example.backend0 "" Obj backend_example.world0
      = Done (backend_example.backend0, w')
    /\ monitoring.serving w' = []
    /\ monitoring.Reload backend_example.backend0 "http://localhost" Obj w'
       = Done (backend_example.backend0, w').
Proof.
  destruct (Reload_empty_then_back backend_example.backend0 Obj Obj
              backend_example.world0) as [w' [Hrel [Hw [_ [_ Hback]]]]].
  exists w'. split; [exact Hrel|]. split.
  - rewrite Hw. reflexivity.
  - apply Hback. discriminate.
Defined.


Lemma Reload_unparsable_witness :
  url_Parse ":bad" = None
  /\ monitoring.Reload backend_example.backend0 ":bad" Nil backend_example.world0
     = Panic
  /\ monitoring.Reload backend_example.backend0 ":bad" Obj backend_example.world0
     = Done (backend_example.backend0,
             monitoring.Stop backend_example.backend0 backend_example.world0)
  /\ monitoring.serving
       (monitoring.Stop backend_example.backend0 backend_example.world0) = [].
Proof.
  split; [reflexivity|].
  destruct (Reload_unparsable backend_example.backend0 ":bad"
              backend_example.world0) as [Hnil [Hobj _]];
    [discriminate | discriminate | reflexivity |].
  split; [exact Hnil|]. split; [exact Hobj | reflexivity].
Defined.

Lemma Reload_keeps_tidy_witness :
  exists b' w',
    monitoring.Reload backend_example.backend0 "http://:9090/status" Obj
      backend_example.world0 = Done (b', w')
    /\ monitoring.httpServer b' = None
    /\ monitoring.tidy b' w'.
Proof.
  eexists _, _. split; [reflexivity|]. split; [reflexivity|].
  exact (proj1 (@Reload_keeps_tidy table_urls) backend_example.backend0
           "http://:9090/status" Obj backend_example.world0 _ _
           backend0_tidy eq_refl).
Defined.

Lemma Factory_New_outcome_witness :
  exists c w',
    Factory_New (NewClusterFactory Obj Obj) (dns_conf ["a.com"]) (world dns)
      = Done (inl c, w')
    /\ Resolver c = Obj /\ reachable c w'.
Proof.
  eexists _, _. split; [reflexivity|].
  destruct (Factory_New_outcome Obj Obj (dns_conf ["a.com"]) (world dns))
    as [Hnew _].
  destruct (Hnew _ _ eq_refl) as [Hres [_ Hreach]]; [discriminate|].
  split; [exact Hres | exact (Hreach eq_refl)].
Defined.

Lemma Route_after_static_reconcile_witness :
  v1alpha1.Name (v1alpha1.mkClusterConfig "media" "STATIC" ["bogus"; "192.168.1.1"])
    <> ""
  /\ exists c',
       Reconcile (static_conf ["bogus"; "192.168.1.1"])
         (cluster ClusterTypeStatic [subnet 10 0 0 0 24] []) (world dns)
       = Done (c', world dns, None)
       /\ Route c' dns (addr 192 168 1 1) = Done true.
Proof.
  split; [discriminate|].
  destruct (Route_after_static_reconcile
              (v1alpha1.mkClusterConfig "media" "STATIC" ["bogus"; "192.168.1.1"])
              (cluster ClusterTypeStatic [subnet 10 0 0 0 24] []) (world dns))
    as [c' [Hrec Hroute]]; [discriminate | reflexivity | reflexivity |].
  exists c'. split; [exact Hrec|].
  destruct (Hroute dns (addr 192 168 1 1)) as [b [Hb Hiff]].
  rewrite Hb. f_equal. apply Hiff.
  exists "192.168.1.1", (subnet 192 168 1 1 32).
  split; [right; left; reflexivity|]. split; reflexivity.
Defined.

Lemma Route_after_strict_dns_reconcile_witness :
  v1alpha1.Name (v1alpha1.mkClusterConfig "media" "STRICT_DNS" ["b.com"; "c.com"])
    <> ""
  /\ exists c' w',
       Reconcile (dns_conf ["b.com"; "c.com"])
         (cluster ClusterTypeStrictDNS [] ["a.com"; "b.com"]) world_ab
       = Done (c', w', None)
       /\ Route c' (resolver w') (addr 10 0 0 4) = Done true
       /\ Route c' (resolver w') (addr 10 0 0 1) = Done false.
Proof.
  split; [discriminate|].
  destruct (Route_after_strict_dns_reconcile
              (v1alpha1.mkClusterConfig "media" "STRICT_DNS" ["b.com"; "c.com"])
              (cluster ClusterTypeStrictDNS [] ["a.com"; "b.com"]) world_ab)
    as [c' [w' [Hrec Hroute]]];
    [discriminate | reflexivity | reflexivity | reflexivity |].
  exists c', w'. split; [exact Hrec|].
  vm_compute in Hrec. injection Hrec as <- <-. split; reflexivity.
Defined.
